(** * The transaction analyzer of eosc ([analysis/analyzer.go])

    A shallow embedding of the [Analyzer] of package [analysis]: the
    report writer that walks a packed EOS transaction and prints its
    header, its actions and the effect of the two system actions
    [setcode] and [setabi].

    The analyzer is a formatting layer over libraries that are not part
    of the repository (eos-go, crypto/sha256, encoding/json, go-spew,
    time).  Their functions are gathered in the record [Externals] and
    every definition and theorem below is parametric in it.  What the
    Go standard library does on plain data ([strings.Join],
    [bytes.Contains], [hex.EncodeToString], the verbs of [fmt]) is
    written out.

    The [bytes.Buffer] behind [Analyzer.Writer] is modelled by the
    ordered log of the write calls made on it ([fmt.Fprintln],
    [fmt.Fprintf], [spew.Fdump]), each with its operands: the bytes of
    the buffer are the concatenation of the texts of these calls
    ([Buffer_String]). *)

From Stdlib Require Import List String Ascii ZArith Lia Bool.
From Stdlib.Strings Require Import Byte.
From Stdlib Require DecimalString HexadecimalString.
Import ListNotations.

Local Open Scope Z_scope.
Local Open Scope list_scope.
Local Open Scope string_scope.

(** ** Go basics *)

(** The [error] interface, observed through its [Error()] text. *)
Definition error := string.

(** [len] of a slice, as a Go [int]. *)
Definition len {A : Type} (s : list A) : Z := Z.of_nat (List.length s).

Definition LF : ascii := ascii_of_nat 10.

(** A Go interpreted string literal: the source writes a line feed as
    the escape [\n]; this is the only escape the analyzer uses. *)
Fixpoint lit (s : string) : string :=
  match s with
  | String "\" (String "n" rest) => String LF (lit rest)
  | String c rest => String c (lit rest)
  | EmptyString => EmptyString
  end.

(** ** Package [time] *)

Module time.

(** An instant, in nanoseconds since the Unix epoch (UTC). *)
Definition Time := Z.

(** A [Duration] is an [int64] count of nanoseconds. *)
Definition Duration := Z.

Definition minDuration : Duration := - 2 ^ 63.
Definition maxDuration : Duration := 2 ^ 63 - 1.

(** [t.Sub(u)]: the difference, saturated to the range of [Duration]. *)
Definition Sub (t u : Time) : Duration :=
  let d := t - u in
  if (d <? minDuration)%Z then minDuration
  else if (maxDuration <? d)%Z then maxDuration
  else d.

End time.

(** ** Package [ecc] of eos-go *)

Module ecc.

Record Signature := { Curve : Z; Content : list byte }.

End ecc.

(** ** Package [eos] (eos-go) and its sub-package [system] *)

Module eos.

Definition Name := string.
Definition AccountName := Name.
Definition ActionName := Name.
Definition PermissionName := Name.
Definition HexBytes := list byte.
Definition Checksum256 := list byte.

Module PermissionLevel.
Record t := { Actor : AccountName; Permission : PermissionName }.
End PermissionLevel.

(** The decoded ABI document: only handed from [UnmarshalBinary] to
    [json.MarshalIndent], never inspected by the analyzer. *)
Module ABI.
Record FieldDef := { FieldName : string; FieldType : string }.
Record StructDef :=
  { StructName : string; Base : string; Fields : list FieldDef }.
Record ActionDef :=
  { ActionDefName : ActionName; ActionDefType : string }.
Record TableDef :=
  { TableName : string; IndexType : string; TableType : string }.
Record t :=
  { Version : string;
    Structs : list StructDef;
    Actions : list ActionDef;
    Tables : list TableDef }.
(** The zero value of [var unpackedABI eos.ABI]. *)
Definition zero : t :=
  {| Version := ""; Structs := []; Actions := []; Tables := [] |}.
End ABI.

Module system.

Module SetCode.
Record t :=
  { Account : AccountName;
    VMType : byte;
    VMVersion : byte;
    Code : HexBytes }.
End SetCode.

Module SetABI.
Record t := { Account : AccountName; ABI : HexBytes }.
End SetABI.

End system.

(** The dynamic value held by the interface field [ActionData.Data]
    once the transaction is unpacked: the type switch of
    [analyzeAction] tells three cases apart. *)
Inductive any :=
| Nil                                  (* no registered struct: raw payload *)
| PtrSetCode (obj : system.SetCode.t)  (* *system.SetCode *)
| PtrSetABI (obj : system.SetABI.t)    (* *system.SetABI *)
| PtrOther (typ : string).             (* any other registered struct *)

Module ActionData.
Record t := { HexData : HexBytes; Data : any }.
End ActionData.

Module Action.
Record t :=
  { Account : AccountName;
    Name : ActionName;
    Authorization : list PermissionLevel.t;
    ActionData : ActionData.t }.
End Action.

Module Transaction.
Record t :=
  { Expiration : time.Time;
    RefBlockNum : Z;          (* uint16 *)
    RefBlockPrefix : Z;       (* uint32 *)
    MaxNetUsageWords : Z;     (* Varuint32 *)
    MaxCPUUsageMS : Z;        (* uint8 *)
    DelaySec : Z;             (* Varuint32 *)
    ContextFreeActions : list Action.t;
    Actions : list Action.t }.
End Transaction.

Module SignedTransaction.
Record t :=
  { Transaction : Transaction.t;
    Signatures : list ecc.Signature;
    ContextFreeData : list HexBytes }.
End SignedTransaction.

Module PackedTransaction.
Record t :=
  { Signatures : list ecc.Signature;
    Compression : Z;
    PackedContextFreeData : HexBytes;
    PackedTransaction : HexBytes }.
End PackedTransaction.

End eos.

(** ** What the analyzer takes from its libraries *)

Record Externals := {
  (* eos-go *)
  ID : eos.PackedTransaction.t -> eos.Checksum256;
  Unpack : eos.PackedTransaction.t -> eos.SignedTransaction.t + error;
  UnmarshalBinary : list byte -> eos.ABI.t -> eos.ABI.t * option error;
  (* encoding/json: MarshalIndent(v, prefix, indent) *)
  MarshalIndent : eos.ABI.t -> string -> string -> list byte * option error;
  (* crypto/sha256: the SHA-256 digest of a byte sequence *)
  Sum256 : list byte -> list byte;
  (* time.Now().UTC(), read once per pass *)
  Now : time.Time;
  (* String() methods and printers used when the buffer is rendered *)
  Checksum256_String : eos.Checksum256 -> string;
  Signature_String : ecc.Signature -> string;
  Time_String : time.Time -> string;
  Duration_String : time.Duration -> string;
  Quote : string -> string;                     (* strconv.Quote *)
}.

(** ** Package [strings] *)

Module strings.

(** [strings.Join(elems, sep)]. *)
Fixpoint Join (elems : list string) (sep : string) : string :=
  match elems with
  | [] => ""
  | [e] => e
  | e :: rest => e ++ sep ++ Join rest sep
  end.

End strings.

(** ** Package [encoding/hex] *)

Module hex.

Definition hextable : list ascii :=
  list_ascii_of_string "0123456789abcdef".

Definition digit (n : N) : ascii := nth (N.to_nat n) hextable "0"%char.

(** [hex.EncodeToString(src)]: two lower-case digits per byte. *)
Fixpoint EncodeToString (src : list byte) : string :=
  match src with
  | [] => ""
  | v :: rest =>
      String (digit (N.shiftr (Byte.to_N v) 4))
        (String (digit (N.land (Byte.to_N v) 15)) (EncodeToString rest))
  end.

End hex.

(** ** Package [crypto/sha256], through the [hash.Hash] interface *)

Module sha256.

(** The state of a running hash: the bytes written to it so far. *)
Record digest := { written : list byte }.

Definition New : digest := {| written := [] |}.

(** [h.Write(p)] never fails and reports [len(p)]. *)
Definition Write (h : digest) (p : list byte) : digest * (Z * option error) :=
  ({| written := (written h ++ p)%list |}, (len p, None)).

(** [h.Sum(b)] appends the digest of what was written to [b]. *)
Definition Sum (E : Externals) (h : digest) (b : list byte) : list byte :=
  (b ++ Sum256 E (written h))%list.

End sha256.

(** ** Package [fmt] and the output buffer *)

Module fmt.

(** The operands the analyzer hands to the printers. *)
Inductive value :=
| VString (s : string)
| VInt (n : Z)
| VBool (b : bool)
| VBytes (b : list byte)
| VError (e : error)
| VChecksum256 (c : eos.Checksum256)
| VSignatures (l : list ecc.Signature)
| VTime (t : time.Time)
| VDuration (d : time.Duration).

(** One write call on the buffer. *)
Inductive output :=
| Fprintln (v : list value)                   (* fmt.Fprintln(w, v...) *)
| Fprintf (format : string) (v : list value)  (* fmt.Fprintf(w, format, v...) *)
| Fdump (v : list value).                     (* spew.Fdump(w, v...) *)

Definition decimal (n : Z) : string :=
  DecimalString.NilZero.string_of_int (Z.to_int n).

Definition hexadecimal (n : Z) : string :=
  (if (n <? 0)%Z then "-" else "") ++
  HexadecimalString.NilZero.string_of_uint (N.to_hex_uint (Z.abs_N n)).

Definition typeName (v : value) : string :=
  match v with
  | VString _ => "string"
  | VInt _ => "int"
  | VBool _ => "bool"
  | VBytes _ => "[]uint8"
  | VError _ => "*errors.errorString"
  | VChecksum256 _ => "eos.Checksum256"
  | VSignatures _ => "[]ecc.Signature"
  | VTime _ => "time.Time"
  | VDuration _ => "time.Duration"
  end.

Section Verbs.
Context (E : Externals).

(** The default format ([%v]) of an operand. *)
Definition default (v : value) : string :=
  match v with
  | VString s => s
  | VInt n => decimal n
  | VBool b => if b then "true" else "false"
  | VBytes b =>
      "[" ++ strings.Join (map (fun x => decimal (Z.of_N (Byte.to_N x))) b) " " ++ "]"
  | VError e => e
  | VChecksum256 c => Checksum256_String E c
  | VSignatures l => "[" ++ strings.Join (map (Signature_String E) l) " " ++ "]"
  | VTime t => Time_String E t
  | VDuration d => Duration_String E d
  end.

(** One verb applied to one operand; a verb that does not fit the
    operand yields Go's [%!verb(type=value)] marker. *)
Definition operand (verb : ascii) (v : value) : string :=
  let bad := "%!" ++ String verb ("(" ++ typeName v ++ "=" ++ default v ++ ")") in
  match verb, v with
  | "v"%char, _ => default v
  | "s"%char, VInt _ | "s"%char, VBool _ => bad
  | "s"%char, VBytes b => string_of_list_byte b
  | "s"%char, _ => default v
  | "d"%char, VInt n => decimal n
  | "x"%char, VInt n => hexadecimal n
  | "x"%char, VString s => hex.EncodeToString (list_byte_of_string s)
  | "x"%char, VBytes b => hex.EncodeToString b
  | "t"%char, VBool _ => default v
  | "q"%char, VString s => Quote E s
  | "q"%char, VError e => Quote E e
  | "q"%char, VSignatures l =>
      "[" ++ strings.Join (map (fun s => Quote E (Signature_String E s)) l) " " ++ "]"
  | _, _ => bad
  end.

(** [fmt.Sprintf(format, v...)] for formats made of plain text and
    flag-less verbs, which is all the analyzer writes. *)
Fixpoint Sprintf (format : string) (v : list value) : string :=
  match format with
  | EmptyString =>
      match v with
      | [] => ""
      | _ => "%!(EXTRA " ++
             strings.Join (map (fun x => typeName x ++ "=" ++ default x) v) ", " ++ ")"
      end
  | String "%" (String "%" rest) => String "%" (Sprintf rest v)
  | String "%" (String verb rest) =>
      match v with
      | [] => "%!" ++ String verb ("(MISSING)" ++ Sprintf rest [])
      | x :: v' => operand verb x ++ Sprintf rest v'
      end
  | String "%" EmptyString => "%!(NOVERB)"
  | String c rest => String c (Sprintf rest v)
  end.

(** [fmt.Sprintln(v...)]: the operands in default format, separated by
    spaces, and a line feed. *)
Definition Sprintln (v : list value) : string :=
  strings.Join (map default v) " " ++ String LF "".

End Verbs.

End fmt.

Import fmt.

(** ** Package [bytes] *)

Module bytes.

(** The buffer, as the log of the writes made on it. *)
Definition Buffer := list fmt.output.

Fixpoint HasPrefix (s prefix : list byte) {struct prefix} : bool :=
  match prefix, s with
  | [], _ => true
  | _ :: _, [] => false
  | p :: prefix', c :: s' => Byte.eqb c p && HasPrefix s' prefix'
  end.

(** [bytes.Index(s, sep)]: the index of the first instance of [sep] in
    [s], or -1. *)
Fixpoint Index (s sep : list byte) : Z :=
  if HasPrefix s sep then 0
  else match s with
       | [] => -1
       | _ :: s' => let i := Index s' sep in if (i =? -1)%Z then -1 else i + 1
       end.

(** [bytes.Contains(b, subslice)]. *)
Definition Contains (b subslice : list byte) : bool :=
  negb (Index b subslice =? -1)%Z.

End bytes.

(** [[]byte("...")]. *)
Definition bytes_of (s : string) : list byte := list_byte_of_string s.

(** ** The analyzer *)

Record Analyzer := { Verbose : bool; Writer : bytes.Buffer }.

Definition NewAnalyzer (verbose : bool) : Analyzer :=
  {| Verbose := verbose; Writer := [] |}.

(** Methods on [*Analyzer] pass the analyzer along. *)
Definition M (A : Type) : Type := Analyzer -> A * Analyzer.

Definition ret {A : Type} (x : A) : M A := fun a => (x, a).

Definition bind {A B : Type} (m : M A) (k : A -> M B) : M B :=
  fun a => let (x, a') := m a in k x a'.

Declare Scope go_scope.
Delimit Scope go_scope with go.
Bind Scope go_scope with M.

Notation "x <- m ;; k" := (bind m (fun x => k))
  (at level 61, m at next level, right associativity) : go_scope.
Notation "m ;; k" := (bind m (fun _ => k))
  (at level 61, right associativity) : go_scope.

Local Open Scope go_scope.

(** A write on [a.Writer]. *)
Definition write (o : fmt.output) : M unit :=
  fun a => (tt, {| Verbose := Verbose a; Writer := (Writer a ++ [o])%list |}).

(** Pln is a short for Println on the Writer *)
Definition Pln (v : list value) : M unit := write (Fprintln v).

(** VerbPln is a short for Println on the Writer, in Verbose mode. *)
Definition VerbPln (v : list value) : M unit :=
  fun a => if Verbose a then write (Fprintln v) a else (tt, a).

(** VerbDump is a short for spew.Fdump on the Writer, in Verbose mode. *)
Definition VerbDump (v : list value) : M unit :=
  fun a => if Verbose a then write (Fdump v) a else (tt, a).

(** Dump is a short for spew.Fdump on the Writer. *)
Definition Dump (v : list value) : M unit := write (Fdump v).

(** Pf is a short for Println on the Writer *)
Definition Pf (format : string) (v : list value) : M unit :=
  write (Fprintf format v).

(** VerbPf is a short for Println on the Writer, in Verbose mode. *)
Definition VerbPf (format : string) (v : list value) : M unit :=
  fun a => if Verbose a then write (Fprintf format v) a else (tt, a).

(** [for idx, x := range l { body }], for a body that cannot leave the
    loop. *)
Fixpoint range {A : Type} (body : Z -> A -> M unit) (idx : Z) (l : list A)
  : M unit :=
  match l with
  | [] => ret tt
  | x :: rest => body idx x ;; range body (idx + 1) rest
  end.

(** [for idx, x := range l { if err := body; err != nil { return err } }]:
    the first error leaves the loop (and the function) at once. *)
Fixpoint rangeErr {A : Type} (body : Z -> A -> M (option error)) (idx : Z)
  (l : list A) : M (option error) :=
  match l with
  | [] => ret None
  | x :: rest =>
      err <- body idx x ;;
      match err with
      | Some e => ret (Some e)
      | None => rangeErr body (idx + 1) rest
      end
  end.

Definition rule : string :=
  "---------------------------------------------------------------------".

Section Analysis.
Context (E : Externals).

(** [analyzeAction] receives the action through a pointer: the model
    hands back, next to the error, the action as it is after the call. *)
Definition analyzeAction (idx : Z) (act : eos.Action.t)
  : M (option error * eos.Action.t) :=
  let auths :=
    fold_left
      (fun (auths : list string) (auth : eos.PermissionLevel.t) =>
         (auths ++ [fmt.Sprintf E "%s@%s"
                      [VString (eos.PermissionLevel.Actor auth);
                       VString (eos.PermissionLevel.Permission auth)]])%list)
      (eos.Action.Authorization act) [] in
  Pf (lit "%d. Action %s::%s, authorized by: %s\n")
     [VInt (idx + 1); VString (eos.Action.Account act);
      VString (eos.Action.Name act); VString (strings.Join auths ", ")] ;;
  returned <-
    match eos.ActionData.Data (eos.Action.ActionData act) with
    | eos.PtrSetCode obj =>
        Pf (lit "Set code for account: %s\n")
           [VString (eos.system.SetCode.Account obj)] ;;
        Pf (lit "VM type/version: %d/%d\n")
           [VInt (Z.of_N (Byte.to_N (eos.system.SetCode.VMType obj)));
            VInt (Z.of_N (Byte.to_N (eos.system.SetCode.VMVersion obj)))] ;;
        let h := sha256.New in
        let (h, _) := sha256.Write h (eos.system.SetCode.Code obj) in
        Pf (lit "Code's SHA256: %s\n")
           [VString (hex.EncodeToString (sha256.Sum E h []))] ;;
        Pf (lit "Contains the string 'SYS': %v\n")
           [VBool (bytes.Contains (eos.system.SetCode.Code obj) (bytes_of "SYS"))] ;;
        Pf (lit "Contains the string 'EOS': %v\n")
           [VBool (bytes.Contains (eos.system.SetCode.Code obj) (bytes_of "EOS"))] ;;
        VerbDump [VBytes (eos.system.SetCode.Code obj)] ;;
        ret None
    | eos.PtrSetABI obj =>
        Pf (lit "Set ABI for account: %s\n")
           [VString (eos.system.SetABI.Account obj)] ;;
        let (unpackedABI, err) :=
          UnmarshalBinary E (eos.system.SetABI.ABI obj) eos.ABI.zero in
        match err with
        | Some err => Pf (lit "Couldn't unpack the ABI therein: %s\n") [VError err]
        | None => ret tt
        end ;;
        let (jsonABI, err) := MarshalIndent E unpackedABI "" "  " in
        match err with
        | Some err => Pf (lit "Couldn't serialize ABI into JSON: %s\n") [VError err]
        | None => ret tt
        end ;;
        VerbPln [VString "JSON representation of the ABI:"] ;;
        VerbPf (lit "%s\n") [VString (string_of_list_byte jsonABI)] ;;
        ret None
    | _ =>
        (* default: return nil *)
        ret (Some (@None error))
    end ;;
  match returned with
  | Some err => ret (err, act)
  | None =>
      Pln [] ;;
      Pln [] ;;
      ret (None, act)
  end.

Definition AnalyzeTransaction (tx : eos.Transaction.t) : M (option error) :=
  Pln [] ;;
  Pln [VString rule] ;;
  Pln [VString "----------------------- TRANSACTION HEADER --------------------------"] ;;
  Pln [VString rule] ;;
  Pln [] ;;
  let now := Now E in
  Pf (lit "Expiration: %s (in %s, analysis time: %s)\n")
     [VTime (eos.Transaction.Expiration tx);
      VDuration (time.Sub (eos.Transaction.Expiration tx) now); VTime now] ;;
  Pf (lit "Expiration: %s\n") [VTime (eos.Transaction.Expiration tx)] ;;
  Pf (lit "Reference block number: %d\n") [VInt (eos.Transaction.RefBlockNum tx)] ;;
  Pf (lit "Reference block prefix: %x\n") [VInt (eos.Transaction.RefBlockPrefix tx)] ;;
  Pf (lit "Maximum net usage words (of 8 bytes, 0 = unlimited): %d\n")
     [VInt (eos.Transaction.MaxNetUsageWords tx)] ;;
  Pf (lit "Maximum CPU usage in milliseconds (0 = unlimited): %d\n")
     [VInt (eos.Transaction.MaxCPUUsageMS tx)] ;;
  Pf (lit "Number of seconds to delay transaction (cancellable during that time): %d\n")
     [VInt (eos.Transaction.DelaySec tx)] ;;
  Pln [] ;;
  Pln [VString rule] ;;
  Pln [VString "------------------------------ ACTIONS ------------------------------"] ;;
  Pln [VString rule] ;;
  Pln [] ;;
  Pf (lit "Context-free actions: %d\n") [VInt (len (eos.Transaction.ContextFreeActions tx))] ;;
  err <- rangeErr (fun idx act => r <- analyzeAction idx act ;; ret (fst r))
           0 (eos.Transaction.ContextFreeActions tx) ;;
  match err with
  | Some err => ret (Some err)
  | None =>
      Pln [] ;;
      Pf (lit "Actions: %d\n") [VInt (len (eos.Transaction.Actions tx))] ;;
      err <- rangeErr (fun idx act => r <- analyzeAction idx act ;; ret (fst r))
               0 (eos.Transaction.Actions tx) ;;
      match err with
      | Some err => ret (Some err)
      | None => ret None
      end
  end.

Definition AnalyzeSignedTransaction (sTx : eos.SignedTransaction.t)
  : M (option error) :=
  AnalyzeTransaction (eos.SignedTransaction.Transaction sTx).

Definition AnalyzePacked (trx : eos.PackedTransaction.t) : M (option error) :=
  Pln [] ;;
  Pln [VString rule] ;;
  Pln [VString "------------------------- PACKED TRANSACTION ------------------------"] ;;
  Pln [VString rule] ;;
  Pln [] ;;
  Pf (lit "Transaction ID: %s\n") [VChecksum256 (ID E trx)] ;;
  Pf (lit "Signatures: %q\n") [VSignatures (eos.PackedTransaction.Signatures trx)] ;;
  Pf (lit "Packed context free data length: %d\n")
     [VInt (len (eos.PackedTransaction.PackedContextFreeData trx))] ;;
  VerbDump [VBytes (eos.PackedTransaction.PackedContextFreeData trx)] ;;
  Pf (lit "Packed transaction data length: %d\n")
     [VInt (len (eos.PackedTransaction.PackedTransaction trx))] ;;
  VerbDump [VBytes (eos.PackedTransaction.PackedContextFreeData trx)] ;;
  Pln [] ;;
  Pln [VString rule] ;;
  Pln [VString "----------------------- SIGNED TRANSACTION --------------------------"] ;;
  Pln [VString rule] ;;
  Pln [] ;;
  match Unpack E trx with
  | inr err => ret (Some err)
  | inl sTx =>
      Pf (lit "Number of context-free data blobs (on Transaction): %d\n")
         [VInt (len (eos.SignedTransaction.ContextFreeData sTx))] ;;
      range (fun idx blob =>
               Pf (lit "%d. Blob length: %d\n") [VInt (idx + 1); VInt (len blob)] ;;
               VerbDump [VBytes blob])
            0 (eos.SignedTransaction.ContextFreeData sTx) ;;
      AnalyzeSignedTransaction sTx
  end.

End Analysis.

(** ** Reading a buffer *)

(** The text of the buffer: the texts of its writes, in order.  The
    dumper of go-spew is taken as given. *)
Section Rendering.
Context (E : Externals) (Sdump : list value -> string).

Definition text (o : fmt.output) : string :=
  match o with
  | Fprintln v => fmt.Sprintln E v
  | Fprintf format v => fmt.Sprintf E format v
  | Fdump v => Sdump v
  end.

Fixpoint Buffer_String (w : bytes.Buffer) : string :=
  match w with
  | [] => ""
  | o :: w' => text o ++ Buffer_String w'
  end.

End Rendering.

(** A banner line is a line of dashes around a title, as in
    [------ ACTIONS ------]; [bannerTitle] gives the title. *)
Fixpoint dropDashes (s : string) : string :=
  match s with
  | String "-" rest => dropDashes rest
  | _ => s
  end.

Fixpoint untilDash (s : string) : string :=
  match s with
  | String " " (String "-" _) => ""
  | String c rest => String c (untilDash rest)
  | EmptyString => ""
  end.

Definition bannerTitle (o : fmt.output) : option string :=
  match o with
  | Fprintln [VString (String "-" rest)] =>
      match dropDashes rest with
      | String " " title => Some (untilDash title)
      | _ => None
      end
  | _ => None
  end.

(** The titles of the banners written to a buffer, in order. *)
Fixpoint sections (w : bytes.Buffer) : list string :=
  match w with
  | [] => []
  | o :: w' =>
      match bannerTitle o with
      | Some title => title :: sections w'
      | None => sections w'
      end
  end.

(** The operands of the byte dumps written to a buffer, in order. *)
Fixpoint dumps (w : bytes.Buffer) : list (list value) :=
  match w with
  | [] => []
  | Fdump v :: w' => v :: dumps w'
  | _ :: w' => dumps w'
  end.

(** What a verbose-gated helper writes. *)
Definition gated (verbose : bool) (o : fmt.output) : list fmt.output :=
  if verbose then [o] else [].

(** The entry line of an action: its number, account, name and the
    joined list of its authorizations. *)
Definition authorization (auth : eos.PermissionLevel.t) : string :=
  eos.PermissionLevel.Actor auth ++ "@" ++ eos.PermissionLevel.Permission auth.

Definition entry (n : Z) (act : eos.Action.t) : fmt.output :=
  Fprintf (lit "%d. Action %s::%s, authorized by: %s\n")
    [VInt n; VString (eos.Action.Account act); VString (eos.Action.Name act);
     VString (strings.Join (map authorization (eos.Action.Authorization act)) ", ")].

(** A write that shows the number [n] among its operands. *)
Definition shows (n : Z) (o : fmt.output) : Prop :=
  match o with
  | Fprintln v | Fprintf _ v | Fdump v => In (VInt n) v
  end.

(** A write that only a verbose pass makes: a byte dump, or one of the
    two lines that carry the JSON text of an ABI. *)
Definition verboseOnly (o : fmt.output) : bool :=
  match o with
  | Fdump _ => true
  | Fprintln [VString s] => String.eqb s "JSON representation of the ABI:"
  | Fprintf format _ => String.eqb format (lit "%s\n")
  | _ => false
  end.

Section Reports.
Context (E : Externals).

(** The sub-report of an action, after its entry line. *)
Definition details (verbose : bool) (act : eos.Action.t) : list fmt.output :=
  match eos.ActionData.Data (eos.Action.ActionData act) with
  | eos.PtrSetCode obj =>
      [Fprintf (lit "Set code for account: %s\n")
         [VString (eos.system.SetCode.Account obj)];
       Fprintf (lit "VM type/version: %d/%d\n")
         [VInt (Z.of_N (Byte.to_N (eos.system.SetCode.VMType obj)));
          VInt (Z.of_N (Byte.to_N (eos.system.SetCode.VMVersion obj)))];
       Fprintf (lit "Code's SHA256: %s\n")
         [VString (hex.EncodeToString (Sum256 E (eos.system.SetCode.Code obj)))];
       Fprintf (lit "Contains the string 'SYS': %v\n")
         [VBool (bytes.Contains (eos.system.SetCode.Code obj) (bytes_of "SYS"))];
       Fprintf (lit "Contains the string 'EOS': %v\n")
         [VBool (bytes.Contains (eos.system.SetCode.Code obj) (bytes_of "EOS"))]]
      ++ gated verbose (Fdump [VBytes (eos.system.SetCode.Code obj)])
      ++ [Fprintln []; Fprintln []]
  | eos.PtrSetABI obj =>
      let decoded := UnmarshalBinary E (eos.system.SetABI.ABI obj) eos.ABI.zero in
      let json := MarshalIndent E (fst decoded) "" "  " in
      [Fprintf (lit "Set ABI for account: %s\n")
         [VString (eos.system.SetABI.Account obj)]]
      ++ match snd decoded with
         | Some err => [Fprintf (lit "Couldn't unpack the ABI therein: %s\n") [VError err]]
         | None => []
         end
      ++ match snd json with
         | Some err => [Fprintf (lit "Couldn't serialize ABI into JSON: %s\n") [VError err]]
         | None => []
         end
      ++ gated verbose (Fprintln [VString "JSON representation of the ABI:"])
      ++ gated verbose (Fprintf (lit "%s\n") [VString (string_of_list_byte (fst json))])
      ++ [Fprintln []; Fprintln []]
  | _ => []
  end%list.

(** The entries of a list of actions, numbered from [n]. *)
Fixpoint entries (verbose : bool) (n : Z) (acts : list eos.Action.t)
  : list fmt.output :=
  match acts with
  | [] => []
  | act :: rest =>
      (entry n act :: details verbose act ++ entries verbose (n + 1) rest)%list
  end.

End Reports.

(** ** The sections of a report *)

Definition banner (title : string) : list fmt.output :=
  [Fprintln []; Fprintln [VString rule]; Fprintln [VString title];
   Fprintln [VString rule]; Fprintln []].

Definition PACKED_TRANSACTION : string :=
  "------------------------- PACKED TRANSACTION ------------------------".
Definition SIGNED_TRANSACTION : string :=
  "----------------------- SIGNED TRANSACTION --------------------------".
Definition TRANSACTION_HEADER : string :=
  "----------------------- TRANSACTION HEADER --------------------------".
Definition ACTIONS : string :=
  "------------------------------ ACTIONS ------------------------------".

(** The lines of the context-free data blobs, numbered from [n]. *)
Fixpoint blobs (verbose : bool) (n : Z) (l : list eos.HexBytes)
  : list fmt.output :=
  match l with
  | [] => []
  | blob :: rest =>
      (Fprintf (lit "%d. Blob length: %d\n") [VInt n; VInt (len blob)]
       :: gated verbose (Fdump [VBytes blob]) ++ blobs verbose (n + 1) rest)%list
  end.

Section Sections.
Context (E : Externals).

Definition packedSection (verbose : bool) (trx : eos.PackedTransaction.t)
  : list fmt.output :=
  (banner PACKED_TRANSACTION
   ++ [Fprintf (lit "Transaction ID: %s\n") [VChecksum256 (ID E trx)];
       Fprintf (lit "Signatures: %q\n")
         [VSignatures (eos.PackedTransaction.Signatures trx)];
       Fprintf (lit "Packed context free data length: %d\n")
         [VInt (len (eos.PackedTransaction.PackedContextFreeData trx))]]
   ++ gated verbose (Fdump [VBytes (eos.PackedTransaction.PackedContextFreeData trx)])
   ++ [Fprintf (lit "Packed transaction data length: %d\n")
         [VInt (len (eos.PackedTransaction.PackedTransaction trx))]]
   ++ gated verbose (Fdump [VBytes (eos.PackedTransaction.PackedContextFreeData trx)]))%list.

Definition signedSection (verbose : bool) (sTx : eos.SignedTransaction.t)
  : list fmt.output :=
  (Fprintf (lit "Number of context-free data blobs (on Transaction): %d\n")
     [VInt (len (eos.SignedTransaction.ContextFreeData sTx))]
   :: blobs verbose 1 (eos.SignedTransaction.ContextFreeData sTx))%list.

Definition headerSection (tx : eos.Transaction.t) : list fmt.output :=
  (banner TRANSACTION_HEADER
   ++ [Fprintf (lit "Expiration: %s (in %s, analysis time: %s)\n")
         [VTime (eos.Transaction.Expiration tx);
          VDuration (time.Sub (eos.Transaction.Expiration tx) (Now E));
          VTime (Now E)];
       Fprintf (lit "Expiration: %s\n") [VTime (eos.Transaction.Expiration tx)];
       Fprintf (lit "Reference block number: %d\n")
         [VInt (eos.Transaction.RefBlockNum tx)];
       Fprintf (lit "Reference block prefix: %x\n")
         [VInt (eos.Transaction.RefBlockPrefix tx)];
       Fprintf (lit "Maximum net usage words (of 8 bytes, 0 = unlimited): %d\n")
         [VInt (eos.Transaction.MaxNetUsageWords tx)];
       Fprintf (lit "Maximum CPU usage in milliseconds (0 = unlimited): %d\n")
         [VInt (eos.Transaction.MaxCPUUsageMS tx)];
       Fprintf (lit "Number of seconds to delay transaction (cancellable during that time): %d\n")
         [VInt (eos.Transaction.DelaySec tx)]])%list.

Definition actionsSection (verbose : bool) (tx : eos.Transaction.t)
  : list fmt.output :=
  (banner ACTIONS
   ++ [Fprintf (lit "Context-free actions: %d\n")
         [VInt (len (eos.Transaction.ContextFreeActions tx))]]
   ++ entries E verbose 1 (eos.Transaction.ContextFreeActions tx)
   ++ [Fprintln [];
       Fprintf (lit "Actions: %d\n") [VInt (len (eos.Transaction.Actions tx))]]
   ++ entries E verbose 1 (eos.Transaction.Actions tx))%list.

End Sections.

(** [E] with another [json.MarshalIndent]. *)
Definition withMarshal (E : Externals)
  (marshal : eos.ABI.t -> string -> string -> list byte * option error)
  : Externals :=
  {| ID := ID E; Unpack := Unpack E; UnmarshalBinary := UnmarshalBinary E;
     MarshalIndent := marshal; Sum256 := Sum256 E; Now := Now E;
     Checksum256_String := Checksum256_String E;
     Signature_String := Signature_String E;
     Time_String := Time_String E; Duration_String := Duration_String E;
     Quote := Quote E |}.

(** [appends m x out]: from any analyzer, [m] returns [x], leaves the
    verbose flag alone and appends [out] to the buffer, where [out] may
    depend on the flag only. *)
Definition appends {A : Type} (m : M A) (x : A)
  (out : bool -> list fmt.output) : Prop :=
  forall a,
    m a = (x, {| Verbose := Verbose a;
                 Writer := (Writer a ++ out (Verbose a))%list |}).

(** [sub ++ ...] occurs inside [s]. *)
Definition occurs (sub s : list byte) : Prop :=
  exists before after, s = (before ++ sub ++ after)%list.

(** ** Sample libraries and inputs

    A small stand-in for the libraries, used to run the analyzer on
    concrete transactions.  Its decoders are toys: a packed transaction
    unpacks to whatever [unpacked] says, an ABI blob decodes when it is
    not empty, the digest is a 4-byte checksum. *)

Module Samples.

Definition dquote : string := String (ascii_of_nat 34) "".

Definition toyDigest (b : list byte) : list byte :=
  let s := fold_left (fun acc x => (acc * 31 + Z.of_N (Byte.to_N x)) mod 2 ^ 32) b 7 in
  map (fun k => match Byte.of_N (Z.to_N (Z.shiftr s (8 * k) mod 256)) with
                | Some x => x
                | None => x00
                end) [3; 2; 1; 0].

Definition lib (unpacked : eos.PackedTransaction.t -> eos.SignedTransaction.t + error)
  : Externals :=
  {| ID := fun trx => toyDigest (eos.PackedTransaction.PackedTransaction trx);
     Unpack := unpacked;
     UnmarshalBinary := fun data v =>
       match data with
       | [] => (v, Some "EOF")
       | _ => ({| eos.ABI.Version := string_of_list_byte data;
                  eos.ABI.Structs := []; eos.ABI.Actions := [];
                  eos.ABI.Tables := [] |}, None)
       end;
     MarshalIndent := fun abi prefix indent =>
       (list_byte_of_string
          (prefix ++ "{" ++ indent ++ "version: " ++ eos.ABI.Version abi ++ "}"), None);
     Sum256 := toyDigest;
     Now := 1000;
     Checksum256_String := hex.EncodeToString;
     Signature_String := fun s => "SIG_K1_" ++ hex.EncodeToString (ecc.Content s);
     Time_String := fun t => fmt.decimal t ++ "ns";
     Duration_String := fun d => fmt.decimal d ++ "ns";
     Quote := fun s => dquote ++ s ++ dquote |}.

Definition active (actor : string) : eos.PermissionLevel.t :=
  {| eos.PermissionLevel.Actor := actor;
     eos.PermissionLevel.Permission := "active" |}.

(** [eosio::setcode] carrying the code bytes [code]. *)
Definition setcode (code : list byte) : eos.Action.t :=
  {| eos.Action.Account := "eosio"; eos.Action.Name := "setcode";
     eos.Action.Authorization := [active "alice"];
     eos.Action.ActionData :=
       {| eos.ActionData.HexData := code;
          eos.ActionData.Data :=
            eos.PtrSetCode
              {| eos.system.SetCode.Account := "alice";
                 eos.system.SetCode.VMType := x00;
                 eos.system.SetCode.VMVersion := x00;
                 eos.system.SetCode.Code := code |} |} |}.

(** [eosio::setabi] carrying the ABI blob [blob]. *)
Definition setabi (blob : list byte) : eos.Action.t :=
  {| eos.Action.Account := "eosio"; eos.Action.Name := "setabi";
     eos.Action.Authorization := [active "alice"];
     eos.Action.ActionData :=
       {| eos.ActionData.HexData := blob;
          eos.ActionData.Data :=
            eos.PtrSetABI
              {| eos.system.SetABI.Account := "alice";
                 eos.system.SetABI.ABI := blob |} |} |}.

(** An action of a contract the libraries know no schema for: its
    payload stays raw. *)
Definition raw (account name : string) (payload : list byte) : eos.Action.t :=
  {| eos.Action.Account := account; eos.Action.Name := name;
     eos.Action.Authorization := [active "alice"; active "bob"];
     eos.Action.ActionData :=
       {| eos.ActionData.HexData := payload; eos.ActionData.Data := eos.Nil |} |}.

Definition transaction (cfa acts : list eos.Action.t) : eos.Transaction.t :=
  {| eos.Transaction.Expiration := 5000;
     eos.Transaction.RefBlockNum := 42;
     eos.Transaction.RefBlockPrefix := 48879;
     eos.Transaction.MaxNetUsageWords := 0;
     eos.Transaction.MaxCPUUsageMS := 0;
     eos.Transaction.DelaySec := 0;
     eos.Transaction.ContextFreeActions := cfa;
     eos.Transaction.Actions := acts |}.

Definition signed (tx : eos.Transaction.t) : eos.SignedTransaction.t :=
  {| eos.SignedTransaction.Transaction := tx;
     eos.SignedTransaction.Signatures := [];
     eos.SignedTransaction.ContextFreeData := [bytes_of "blob"] |}.

Definition packed (cfd trx : list byte) : eos.PackedTransaction.t :=
  {| eos.PackedTransaction.Signatures := [];
     eos.PackedTransaction.Compression := 0;
     eos.PackedTransaction.PackedContextFreeData := cfd;
     eos.PackedTransaction.PackedTransaction := trx |}.

(** A library whose [Unpack] always succeeds with [sTx]. *)
Definition unpacking (sTx : eos.SignedTransaction.t) : Externals :=
  lib (fun _ => inl sTx).

(** A library whose [Unpack] always fails with [err]. *)
Definition failing (err : error) : Externals :=
  lib (fun _ => inr err).

End Samples.

(** ** More readings of a report *)

(** What a whole pass over an envelope returns and writes. *)
Definition outcome (E : Externals) (trx : eos.PackedTransaction.t)
  : option error :=
  match Unpack E trx with
  | inl _ => None
  | inr err => Some err
  end.

Definition packedReport (E : Externals) (verbose : bool)
  (trx : eos.PackedTransaction.t) : list fmt.output :=
  match Unpack E trx with
  | inl sTx =>
      (packedSection E verbose trx ++ banner SIGNED_TRANSACTION
       ++ signedSection verbose sTx
       ++ headerSection E (eos.SignedTransaction.Transaction sTx)
       ++ actionsSection E verbose (eos.SignedTransaction.Transaction sTx))%list
  | inr _ => (packedSection E verbose trx ++ banner SIGNED_TRANSACTION)%list
  end.

(** A buffer without its verbose-only writes. *)
Definition quiet (w : bytes.Buffer) : bytes.Buffer :=
  filter (fun o => negb (verboseOnly o)) w.

(** The entry lines of a buffer are the writes made with the format of
    [analyzeAction]'s first line. *)
Definition isEntry (o : fmt.output) : bool :=
  match o with
  | Fprintf format _ =>
      String.eqb format (lit "%d. Action %s::%s, authorized by: %s\n")
  | _ => false
  end.

(** The code bytes of the [SetCode] actions of a list, in order. *)
Fixpoint codes (acts : list eos.Action.t) : list eos.HexBytes :=
  match acts with
  | [] => []
  | act :: rest =>
      match eos.ActionData.Data (eos.Action.ActionData act) with
      | eos.PtrSetCode obj => eos.system.SetCode.Code obj :: codes rest
      | _ => codes rest
      end
  end.

(** The value of a hexadecimal digit, as [fromHexChar] of
    encoding/hex reads it; only used to tell encodings apart. *)
Definition fromHexChar (c : ascii) : option N :=
  let n := N_of_ascii c in
  if ((48 <=? n) && (n <=? 57))%N then Some (n - 48)%N
  else if ((97 <=? n) && (n <=? 102))%N then Some (n - 97 + 10)%N
  else if ((65 <=? n) && (n <=? 70))%N then Some (n - 65 + 10)%N
  else None.

(** The byte two hexadecimal digits stand for. *)
Definition fromHexPair (hi lo : ascii) : option byte :=
  match fromHexChar hi, fromHexChar lo with
  | Some a, Some b => Byte.of_N (a * 16 + b)
  | _, _ => None
  end.

(** * Properties *)

(** ** Running the helpers *)

Lemma appends_ret {A : Type} (x : A) : appends (ret x) x (fun _ => []).
Proof.
  intros [v w]. unfold ret. simpl. now rewrite app_nil_r.
Qed.

Lemma appends_bind {A B : Type} (m : M A) (k : A -> M B) x y out1 out2 :
  appends m x out1 ->
  appends (k x) y out2 ->
  appends (bind m k) y (fun verbose => out1 verbose ++ out2 verbose)%list.
Proof.
  intros Hm Hk a. unfold bind. rewrite Hm, Hk. simpl.
  now rewrite app_assoc.
Qed.

Lemma appends_ext {A : Type} (m : M A) x out1 out2 :
  appends m x out1 ->
  (forall verbose, out1 verbose = out2 verbose) ->
  appends m x out2.
Proof.
  intros Hm Heq a. rewrite Hm. now rewrite Heq.
Qed.

Lemma appends_write o : appends (write o) tt (fun _ => [o]).
Proof. intros a. reflexivity. Qed.

Lemma appends_gated o :
  appends (fun a => if Verbose a then write o a else (tt, a)) tt
    (fun verbose => gated verbose o).
Proof.
  intros [[|] w]; simpl; [reflexivity | now rewrite app_nil_r].
Qed.

Lemma appends_Pln v : appends (Pln v) tt (fun _ => [Fprintln v]).
Proof. apply appends_write. Qed.

Lemma appends_Pf format v : appends (Pf format v) tt (fun _ => [Fprintf format v]).
Proof. apply appends_write. Qed.

Lemma appends_Dump v : appends (Dump v) tt (fun _ => [Fdump v]).
Proof. apply appends_write. Qed.

Lemma appends_VerbPln v :
  appends (VerbPln v) tt (fun verbose => gated verbose (Fprintln v)).
Proof. apply appends_gated. Qed.

Lemma appends_VerbDump v :
  appends (VerbDump v) tt (fun verbose => gated verbose (Fdump v)).
Proof. apply appends_gated. Qed.

Lemma appends_VerbPf format v :
  appends (VerbPf format v) tt (fun verbose => gated verbose (Fprintf format v)).
Proof. apply appends_gated. Qed.

Create HintDb appends.
#[local] Hint Resolve appends_ret appends_Pln appends_Pf appends_Dump
  appends_VerbPln appends_VerbDump appends_VerbPf : appends.

(** Runs a body made of binds of known steps, collecting what it
    appends. *)
Ltac run :=
  cbn beta iota delta [sha256.Write sha256.New];
  first
    [ solve [eauto with appends]
    | eapply appends_bind; [run | run] ].

(** ** The library functions *)

Lemma Sprintf_authorization E actor permission :
  fmt.Sprintf E "%s@%s" [VString actor; VString permission]
  = actor ++ "@" ++ permission.
Proof.
  simpl. f_equal. induction permission as [|c s IH]; simpl; congruence.
Qed.

Lemma auths_map E (l : list eos.PermissionLevel.t) (acc : list string) :
  fold_left
    (fun (auths : list string) (auth : eos.PermissionLevel.t) =>
       (auths ++ [fmt.Sprintf E "%s@%s"
                    [VString (eos.PermissionLevel.Actor auth);
                     VString (eos.PermissionLevel.Permission auth)]])%list)
    l acc
  = (acc ++ map authorization l)%list.
Proof.
  revert acc. induction l as [|auth l IH]; intros acc; cbn [fold_left map].
  - now rewrite app_nil_r.
  - rewrite IH, Sprintf_authorization, <- app_assoc. reflexivity.
Qed.

Example EncodeToString_sample : hex.EncodeToString [x00; xff; x1a] = "00ff1a".
Proof. reflexivity. Qed.

Example Index_sample :
  bytes.Index (bytes_of "chicken") (bytes_of "ken") = 4
  /\ bytes.Index (bytes_of "chicken") (bytes_of "dmr") = -1.
Proof. split; reflexivity. Qed.

Lemma HasPrefix_spec (s prefix : list byte) :
  bytes.HasPrefix s prefix = true <-> exists rest, s = (prefix ++ rest)%list.
Proof.
  revert s. induction prefix as [|p prefix IH]; intros s; simpl.
  - split; [intros _; now exists s | reflexivity].
  - destruct s as [|c s].
    + split; [discriminate | intros [rest H]; discriminate].
    + rewrite andb_true_iff, IH. split.
      * intros [Hc [rest ->]]. apply byte_dec_bl in Hc. subst. now exists rest.
      * intros [rest H]. injection H as -> ->. split.
        -- now apply byte_dec_lb.
        -- now exists rest.
Qed.

Lemma Index_nonneg (s sep : list byte) :
  bytes.Index s sep = -1 \/ 0 <= bytes.Index s sep.
Proof.
  induction s as [|c s IH]; simpl.
  - destruct (bytes.HasPrefix [] sep); [right; lia | now left].
  - destruct (bytes.HasPrefix (c :: s) sep); [right; lia |].
    destruct (Z.eqb_spec (bytes.Index s sep) (-1)); [now left | right; lia].
Qed.

(** [bytes.Contains] decides the occurrence of a subslice. *)
Lemma Contains_spec (b subslice : list byte) :
  bytes.Contains b subslice = true <-> occurs subslice b.
Proof.
  unfold bytes.Contains, occurs. rewrite negb_true_iff, Z.eqb_neq.
  induction b as [|c b IH]; simpl.
  - destruct (bytes.HasPrefix [] subslice) eqn:Hp.
    + split; [intros _ | discriminate].
      apply HasPrefix_spec in Hp. destruct Hp as [rest Hp].
      now exists [], rest.
    + split; [congruence |]. intros [[|x before] [after H]].
      * simpl in H. assert (bytes.HasPrefix [] subslice = true) as Ht
          by (apply HasPrefix_spec; now exists after).
        congruence.
      * discriminate.
  - destruct (bytes.HasPrefix (c :: b) subslice) eqn:Hp.
    + split; [intros _ | discriminate].
      apply HasPrefix_spec in Hp. destruct Hp as [rest Hp].
      now exists [], rest.
    + destruct (Z.eqb_spec (bytes.Index b subslice) (-1)) as [Hi | Hi].
      * split; [congruence |]. intros [[|x before] [after H]].
        -- simpl in H.
           assert (bytes.HasPrefix (c :: b) subslice = true) as Ht
             by (apply HasPrefix_spec; now exists after).
           congruence.
        -- injection H as -> ->. exfalso. apply IH; [| exact Hi].
           now exists before, after.
      * split; [intros _ | intros _; destruct (Index_nonneg b subslice); lia].
        destruct (proj1 IH Hi) as [before [after ->]].
        now exists (c :: before), after.
Qed.

(** ** What each method appends *)

Section Runs.
Context (E : Externals).

Lemma analyzeAction_appends idx act :
  appends (analyzeAction E idx act) (None, act)
    (fun verbose => entry (idx + 1) act :: details E verbose act).
Proof.
  unfold analyzeAction. rewrite auths_map. cbn [app].
  unfold details.
  destruct (eos.ActionData.Data (eos.Action.ActionData act)) as [|obj|obj|typ].
  - eapply appends_ext; [run | reflexivity].
  - eapply appends_ext; [run |]. intros verbose. cbn.
    now destruct verbose.
  - destruct (UnmarshalBinary E (eos.system.SetABI.ABI obj) eos.ABI.zero)
      as [unpackedABI [err|]];
    cbn [fst snd];
    destruct (MarshalIndent E unpackedABI "" "  ") as [jsonABI [err'|]];
    cbn [fst snd];
    (eapply appends_ext; [run | intros [|]; reflexivity]).
  - eapply appends_ext; [run | reflexivity].
Qed.

Lemma actions_appends (acts : list eos.Action.t) idx :
  appends
    (rangeErr (fun idx act => r <- analyzeAction E idx act ;; ret (fst r)) idx acts)
    None
    (fun verbose => entries E verbose (idx + 1) acts).
Proof.
  revert idx. induction acts as [|act rest IH]; intros idx; cbn [rangeErr entries].
  - apply appends_ret.
  - eapply appends_ext.
    + eapply appends_bind.
      * eapply appends_bind; [apply analyzeAction_appends | apply appends_ret].
      * cbn [fst]. apply IH.
    + intros verbose. cbn. now rewrite app_nil_r.
Qed.

Lemma blobs_appends (l : list eos.HexBytes) idx :
  appends
    (range (fun idx blob =>
              Pf (lit "%d. Blob length: %d\n") [VInt (idx + 1); VInt (len blob)] ;;
              VerbDump [VBytes blob]) idx l)
    tt
    (fun verbose => blobs verbose (idx + 1) l).
Proof.
  revert idx. induction l as [|blob rest IH]; intros idx; cbn [range blobs].
  - apply appends_ret.
  - eapply appends_ext.
    + eapply appends_bind; [run | apply IH].
    + intros verbose. reflexivity.
Qed.

Lemma AnalyzeTransaction_appends tx :
  appends (AnalyzeTransaction E tx) None
    (fun verbose => headerSection E tx ++ actionsSection E verbose tx)%list.
Proof.
  unfold AnalyzeTransaction.
  eapply appends_ext.
  - do 18 (eapply appends_bind; [solve [eauto with appends] |]).
    eapply appends_bind; [apply actions_appends |].
    cbn beta iota.
    do 2 (eapply appends_bind; [solve [eauto with appends] |]).
    eapply appends_bind; [apply actions_appends | apply appends_ret].
  - intros verbose. unfold headerSection, actionsSection, banner.
    cbn [app]. rewrite app_nil_r. reflexivity.
Qed.

Lemma AnalyzeSignedTransaction_appends sTx :
  appends (AnalyzeSignedTransaction E sTx) None
    (fun verbose =>
       headerSection E (eos.SignedTransaction.Transaction sTx)
       ++ actionsSection E verbose (eos.SignedTransaction.Transaction sTx))%list.
Proof. apply AnalyzeTransaction_appends. Qed.

Lemma AnalyzePacked_appends_ok trx sTx :
  Unpack E trx = inl sTx ->
  appends (AnalyzePacked E trx) None
    (fun verbose =>
       packedSection E verbose trx ++ banner SIGNED_TRANSACTION
       ++ signedSection verbose sTx
       ++ headerSection E (eos.SignedTransaction.Transaction sTx)
       ++ actionsSection E verbose (eos.SignedTransaction.Transaction sTx))%list.
Proof.
  intros Hunpack. unfold AnalyzePacked. rewrite Hunpack.
  eapply appends_ext.
  - do 16 (eapply appends_bind; [solve [eauto with appends] |]).
    eapply appends_bind; [solve [eauto with appends] |].
    eapply appends_bind; [apply blobs_appends |].
    apply AnalyzeSignedTransaction_appends.
  - intros verbose. unfold packedSection, signedSection, banner.
    cbn [app]. rewrite <- !app_assoc. destruct verbose; reflexivity.
Qed.

Lemma AnalyzePacked_appends_err trx err :
  Unpack E trx = inr err ->
  appends (AnalyzePacked E trx) (Some err)
    (fun verbose => packedSection E verbose trx ++ banner SIGNED_TRANSACTION)%list.
Proof.
  intros Hunpack. unfold AnalyzePacked. rewrite Hunpack.
  eapply appends_ext.
  - do 16 (eapply appends_bind; [solve [eauto with appends] |]).
    apply appends_ret.
  - intros verbose. unfold packedSection, banner.
    cbn [app]. rewrite <- !app_assoc. destruct verbose; reflexivity.
Qed.

End Runs.

(** ** Banners, entries and verbose-only writes *)

Lemma sections_app (w1 w2 : bytes.Buffer) :
  sections (w1 ++ w2)%list = (sections w1 ++ sections w2)%list.
Proof.
  induction w1 as [|o w1 IH]; simpl; [reflexivity |].
  destruct (bannerTitle o); simpl; now rewrite IH.
Qed.

Lemma sections_gated verbose o :
  bannerTitle o = None -> sections (gated verbose o) = [].
Proof.
  intros H. destruct verbose; simpl; [now rewrite H | reflexivity].
Qed.

Lemma sections_details E verbose act : sections (details E verbose act) = [].
Proof.
  unfold details.
  destruct (eos.ActionData.Data (eos.Action.ActionData act)) as [|obj|obj|typ];
    try reflexivity.
  - destruct verbose; reflexivity.
  - destruct (snd (UnmarshalBinary E (eos.system.SetABI.ABI obj) eos.ABI.zero));
      destruct (snd (MarshalIndent E
                       (fst (UnmarshalBinary E (eos.system.SetABI.ABI obj)
                               eos.ABI.zero)) "" "  "));
      destruct verbose; reflexivity.
Qed.

Lemma sections_entries E verbose n acts : sections (entries E verbose n acts) = [].
Proof.
  revert n. induction acts as [|act rest IH]; intros n; [reflexivity |].
  cbn [entries sections entry bannerTitle].
  now rewrite sections_app, sections_details, IH.
Qed.

Lemma sections_blobs verbose n l : sections (blobs verbose n l) = [].
Proof.
  revert n. induction l as [|blob rest IH]; intros n; [reflexivity |].
  cbn [blobs sections bannerTitle].
  rewrite sections_app, IH, sections_gated; reflexivity.
Qed.

Lemma sections_packedSection E verbose trx :
  sections (packedSection E verbose trx) = ["PACKED TRANSACTION"].
Proof. destruct verbose; reflexivity. Qed.

Lemma sections_signedSection verbose sTx :
  sections (signedSection verbose sTx) = [].
Proof. unfold signedSection. cbn [sections bannerTitle]. apply sections_blobs. Qed.

Lemma sections_headerSection E tx :
  sections (headerSection E tx) = ["TRANSACTION HEADER"].
Proof. reflexivity. Qed.

Lemma sections_actionsSection E verbose tx :
  sections (actionsSection E verbose tx) = ["ACTIONS"].
Proof.
  unfold actionsSection.
  rewrite !sections_app, !sections_entries. reflexivity.
Qed.

(** The entries of a list follow the list: those of [l1 ++ l2] are
    those of [l1], then those of [l2], numbered on. *)
Lemma entries_app E verbose n (l1 l2 : list eos.Action.t) :
  entries E verbose n (l1 ++ l2)%list
  = (entries E verbose n l1 ++ entries E verbose (n + len l1) l2)%list.
Proof.
  revert n. induction l1 as [|act l1 IH]; intros n.
  - cbn. now rewrite Z.add_0_r.
  - cbn [app entries]. rewrite IH, <- app_assoc. cbn [app].
    replace (n + 1 + len l1) with (n + len (act :: l1))
      by (unfold len; cbn [List.length]; lia).
    reflexivity.
Qed.

Lemma quiet_details E act :
  Forall (fun o => verboseOnly o = false) (details E false act).
Proof.
  unfold details.
  destruct (eos.ActionData.Data (eos.Action.ActionData act)) as [|obj|obj|typ].
  - constructor.
  - repeat constructor.
  - destruct (snd (UnmarshalBinary E (eos.system.SetABI.ABI obj) eos.ABI.zero));
      destruct (snd (MarshalIndent E
                       (fst (UnmarshalBinary E (eos.system.SetABI.ABI obj)
                               eos.ABI.zero)) "" "  "));
      repeat constructor.
  - constructor.
Qed.

Lemma quiet_entries E n acts :
  Forall (fun o => verboseOnly o = false) (entries E false n acts).
Proof.
  revert n. induction acts as [|act rest IH]; intros n; cbn [entries].
  - constructor.
  - constructor; [reflexivity |]. apply Forall_app. split.
    + apply quiet_details.
    + apply IH.
Qed.

Lemma quiet_blobs n l : Forall (fun o => verboseOnly o = false) (blobs false n l).
Proof.
  revert n. induction l as [|blob rest IH]; intros n; cbn [blobs gated app].
  - constructor.
  - constructor; [reflexivity | apply IH].
Qed.

Lemma quiet_packedSection E trx :
  Forall (fun o => verboseOnly o = false) (packedSection E false trx).
Proof. repeat constructor. Qed.

Lemma quiet_banner title :
  String.eqb title "JSON representation of the ABI:" = false ->
  Forall (fun o => verboseOnly o = false) (banner title).
Proof. intros H. repeat constructor. exact H. Qed.

Lemma quiet_headerSection E tx :
  Forall (fun o => verboseOnly o = false) (headerSection E tx).
Proof. repeat constructor. Qed.

Lemma quiet_actionsSection E tx :
  Forall (fun o => verboseOnly o = false) (actionsSection E false tx).
Proof.
  unfold actionsSection. repeat (apply Forall_app; split);
    try apply quiet_entries; repeat constructor.
Qed.

(** The text of the lines of a [setcode] sub-report and of an entry. *)
Lemma text_hash_line E Sdump (digest : string) :
  text E Sdump (Fprintf (lit "Code's SHA256: %s\n") [VString digest])
  = "Code's SHA256: " ++ digest ++ String LF "".
Proof. reflexivity. Qed.

Lemma text_marker_line E Sdump (flag : bool) :
  text E Sdump (Fprintf (lit "Contains the string 'SYS': %v\n") [VBool flag])
  = "Contains the string 'SYS': " ++ (if flag then "true" else "false")
    ++ String LF ""
  /\ text E Sdump (Fprintf (lit "Contains the string 'EOS': %v\n") [VBool flag])
     = "Contains the string 'EOS': " ++ (if flag then "true" else "false")
       ++ String LF "".
Proof. split; reflexivity. Qed.

Lemma text_entry E Sdump n act :
  text E Sdump (entry n act)
  = fmt.decimal n ++ ". Action " ++ eos.Action.Account act ++ "::"
    ++ eos.Action.Name act ++ ", authorized by: "
    ++ strings.Join (map authorization (eos.Action.Authorization act)) ", "
    ++ String LF "".
Proof. reflexivity. Qed.

Lemma append_assoc (s1 s2 s3 : string) : (s1 ++ s2) ++ s3 = s1 ++ s2 ++ s3.
Proof. induction s1 as [|c s1 IH]; simpl; congruence. Qed.

(** The text of a buffer grows with the buffer. *)
Lemma Buffer_String_app E Sdump (w1 w2 : bytes.Buffer) :
  Buffer_String E Sdump (w1 ++ w2)%list
  = Buffer_String E Sdump w1 ++ Buffer_String E Sdump w2.
Proof.
  induction w1 as [|o w1 IH]; [reflexivity |].
  cbn [app Buffer_String]. now rewrite IH, append_assoc.
Qed.

(** A buffer with no verbose-only write reads the same under any
    dumper. *)
Lemma Buffer_String_any_dumper E Sdump Sdump' (w : bytes.Buffer) :
  Forall (fun o => verboseOnly o = false) w ->
  Buffer_String E Sdump w = Buffer_String E Sdump' w.
Proof.
  induction 1 as [|o w Ho _ IH]; [reflexivity |].
  cbn [Buffer_String]. rewrite IH.
  destruct o; [reflexivity | reflexivity | discriminate Ho].
Qed.

(** What a quiet pass writes does not depend on the JSON text that
    [json.MarshalIndent] produces, as long as it produces one. *)
Section QuietJSON.
Context (E : Externals).
Context (marshal marshal' : eos.ABI.t -> string -> string -> list byte * option error).
Hypothesis marshal_ok : forall abi prefix indent, snd (marshal abi prefix indent) = None.
Hypothesis marshal'_ok : forall abi prefix indent, snd (marshal' abi prefix indent) = None.

Lemma quiet_details_any_json act :
  details (withMarshal E marshal) false act
  = details (withMarshal E marshal') false act.
Proof.
  unfold details.
  destruct (eos.ActionData.Data (eos.Action.ActionData act)) as [|obj|obj|typ];
    try reflexivity.
  cbn [withMarshal MarshalIndent UnmarshalBinary].
  now rewrite marshal_ok, marshal'_ok.
Qed.

Lemma quiet_entries_any_json n acts :
  entries (withMarshal E marshal) false n acts
  = entries (withMarshal E marshal') false n acts.
Proof.
  revert n. induction acts as [|act rest IH]; intros n; [reflexivity |].
  cbn [entries]. now rewrite quiet_details_any_json, IH.
Qed.

Lemma quiet_AnalyzeTransaction_any_json tx a :
  Verbose a = false ->
  AnalyzeTransaction (withMarshal E marshal) tx a
  = AnalyzeTransaction (withMarshal E marshal') tx a.
Proof.
  intros Hquiet. rewrite !AnalyzeTransaction_appends, Hquiet.
  unfold actionsSection. now rewrite !quiet_entries_any_json.
Qed.

Lemma quiet_AnalyzePacked_any_json trx a :
  Verbose a = false ->
  AnalyzePacked (withMarshal E marshal) trx a
  = AnalyzePacked (withMarshal E marshal') trx a.
Proof.
  intros Hquiet.
  destruct (Unpack E trx) as [sTx | err] eqn:Hunpack.
  - rewrite (AnalyzePacked_appends_ok (withMarshal E marshal) trx sTx Hunpack),
      (AnalyzePacked_appends_ok (withMarshal E marshal') trx sTx Hunpack), Hquiet.
    unfold actionsSection. now rewrite !quiet_entries_any_json.
  - now rewrite (AnalyzePacked_appends_err (withMarshal E marshal) trx err Hunpack),
      (AnalyzePacked_appends_err (withMarshal E marshal') trx err Hunpack).
Qed.

End QuietJSON.

(** The dumps of a buffer. *)
Lemma dumps_app (w1 w2 : bytes.Buffer) :
  dumps (w1 ++ w2)%list = (dumps w1 ++ dumps w2)%list.
Proof.
  induction w1 as [|o w1 IH]; [reflexivity |].
  destruct o; cbn [app dumps]; now rewrite IH.
Qed.

(** In verbose mode the PACKED TRANSACTION section dumps the packed
    context-free data twice, and nothing else. *)
Lemma dumps_packedSection E trx :
  dumps (packedSection E true trx)
  = [[VBytes (eos.PackedTransaction.PackedContextFreeData trx)];
     [VBytes (eos.PackedTransaction.PackedContextFreeData trx)]].
Proof. reflexivity. Qed.

(** ** The statements of the specification *)

(** C1.  When the ABI blob of a [SetABI] action does not unmarshal, the
    analyzer writes the note "Couldn't unpack the ABI therein" right
    after the account line of the action and goes on: nil is returned,
    and the sub-report of the action is followed by the entries of all
    the actions after it (for a context-free action: the rest of the
    context-free actions, then every regular action). *)
Theorem setabi_decode_failure_is_inline E tx a pre act post obj abi err :
  eos.ActionData.Data (eos.Action.ActionData act) = eos.PtrSetABI obj ->
  UnmarshalBinary E (eos.system.SetABI.ABI obj) eos.ABI.zero = (abi, Some err) ->
  fst (AnalyzeTransaction E tx a) = None
  /\ (eos.Transaction.Actions tx = (pre ++ act :: post)%list ->
      exists before rest,
        Writer (snd (AnalyzeTransaction E tx a))
        = (Writer a ++ before
           ++ [entry (len pre + 1) act;
               Fprintf (lit "Set ABI for account: %s\n")
                 [VString (eos.system.SetABI.Account obj)];
               Fprintf (lit "Couldn't unpack the ABI therein: %s\n") [VError err]]
           ++ rest
           ++ entries E (Verbose a) (len pre + 2) post)%list)
  /\ (eos.Transaction.ContextFreeActions tx = (pre ++ act :: post)%list ->
      exists before rest,
        Writer (snd (AnalyzeTransaction E tx a))
        = (Writer a ++ before
           ++ [entry (len pre + 1) act;
               Fprintf (lit "Set ABI for account: %s\n")
                 [VString (eos.system.SetABI.Account obj)];
               Fprintf (lit "Couldn't unpack the ABI therein: %s\n") [VError err]]
           ++ rest
           ++ entries E (Verbose a) (len pre + 2) post
           ++ [Fprintln [];
               Fprintf (lit "Actions: %d\n") [VInt (len (eos.Transaction.Actions tx))]]
           ++ entries E (Verbose a) 1 (eos.Transaction.Actions tx))%list).
Proof.
  intros Hdata Hdecode.
  rewrite (AnalyzeTransaction_appends E tx a). cbn [fst snd Writer].
  assert (exists rest,
             details E (Verbose a) act
             = ([Fprintf (lit "Set ABI for account: %s\n")
                   [VString (eos.system.SetABI.Account obj)];
                 Fprintf (lit "Couldn't unpack the ABI therein: %s\n") [VError err]]
                ++ rest)%list) as [rest Hdetails].
  { unfold details. rewrite Hdata, Hdecode. cbn [fst snd app].
    eexists. reflexivity. }
  split; [reflexivity | split]; intros Hacts; unfold actionsSection;
    rewrite Hacts, entries_app; cbn [entries]; rewrite Hdetails.
  - exists (headerSection E tx ++ banner ACTIONS
            ++ [Fprintf (lit "Context-free actions: %d\n")
                  [VInt (len (eos.Transaction.ContextFreeActions tx))]]
            ++ entries E (Verbose a) 1 (eos.Transaction.ContextFreeActions tx)
            ++ [Fprintln [];
                Fprintf (lit "Actions: %d\n") [VInt (len (pre ++ act :: post)%list)]]
            ++ entries E (Verbose a) 1 pre)%list, rest.
    rewrite <- !app_assoc. cbn [app]. rewrite <- ?app_assoc.
    replace (1 + len pre) with (len pre + 1) by lia.
    replace (len pre + 1 + 1) with (len pre + 2) by lia.
    reflexivity.
  - exists (headerSection E tx ++ banner ACTIONS
            ++ [Fprintf (lit "Context-free actions: %d\n")
                  [VInt (len (pre ++ act :: post)%list)]]
            ++ entries E (Verbose a) 1 pre)%list, rest.
    rewrite <- !app_assoc. cbn [app]. rewrite <- ?app_assoc.
    replace (1 + len pre) with (len pre + 1) by lia.
    replace (len pre + 1 + 1) with (len pre + 2) by lia.
    reflexivity.
Qed.

(** A [setabi] with an undecodable blob, between two other actions. *)
Lemma setabi_decode_failure_sample :
  let tx := Samples.transaction []
              [Samples.raw "foo" "nop" [x01]; Samples.setabi [];
               Samples.raw "alice" "hi" [x02]] in
  let E := Samples.unpacking (Samples.signed tx) in
  fst (AnalyzeTransaction E tx (NewAnalyzer false)) = None
  /\ exists before rest,
       Writer (snd (AnalyzeTransaction E tx (NewAnalyzer false)))
       = (before
          ++ [entry 2 (Samples.setabi []);
              Fprintf (lit "Set ABI for account: %s\n") [VString "alice"];
              Fprintf (lit "Couldn't unpack the ABI therein: %s\n") [VError "EOF"]]
          ++ rest
          ++ [entry 3 (Samples.raw "alice" "hi" [x02])])%list.
Proof.
  intros tx E.
  destruct (setabi_decode_failure_is_inline E tx (NewAnalyzer false)
              [Samples.raw "foo" "nop" [x01]] (Samples.setabi [])
              [Samples.raw "alice" "hi" [x02]] _ _ _ eq_refl eq_refl)
    as [Hnil [Hacts _]].
  split; [exact Hnil |].
  destruct (Hacts eq_refl) as [before [rest Hw]].
  exists before, rest. exact Hw.
Defined.



(** C3.  For a [SetCode] action with code bytes [C], the sub-report is
    the entry line, the account and VM lines, the line of the hash,
    which prints the hexadecimal SHA-256 digest of [C], and the two
    marker lines, whose flags are true exactly when SYS, respectively
    EOS, occurs in [C]; then the dump of [C] in verbose mode and two
    blank lines. *)
Theorem setcode_prints_hash_and_markers E idx act obj a :
  eos.ActionData.Data (eos.Action.ActionData act) = eos.PtrSetCode obj ->
  exists sys eos : bool,
    Writer (snd (analyzeAction E idx act a))
    = (Writer a
       ++ [entry (idx + 1) act;
           Fprintf (lit "Set code for account: %s\n")
             [VString (eos.system.SetCode.Account obj)];
           Fprintf (lit "VM type/version: %d/%d\n")
             [VInt (Z.of_N (Byte.to_N (eos.system.SetCode.VMType obj)));
              VInt (Z.of_N (Byte.to_N (eos.system.SetCode.VMVersion obj)))];
           Fprintf (lit "Code's SHA256: %s\n")
             [VString (hex.EncodeToString (Sum256 E (eos.system.SetCode.Code obj)))];
           Fprintf (lit "Contains the string 'SYS': %v\n") [VBool sys];
           Fprintf (lit "Contains the string 'EOS': %v\n") [VBool eos]]
       ++ gated (Verbose a) (Fdump [VBytes (eos.system.SetCode.Code obj)])
       ++ [Fprintln []; Fprintln []])%list
    /\ (sys = true <-> occurs (bytes_of "SYS") (eos.system.SetCode.Code obj))
    /\ (eos = true <-> occurs (bytes_of "EOS") (eos.system.SetCode.Code obj)).
Proof.
  intros Hdata.
  exists (bytes.Contains (eos.system.SetCode.Code obj) (bytes_of "SYS")),
         (bytes.Contains (eos.system.SetCode.Code obj) (bytes_of "EOS")).
  split; [| split; apply Contains_spec].
  rewrite (analyzeAction_appends E idx act a). cbn [snd Writer].
  unfold details. rewrite Hdata. reflexivity.
Qed.

(** A [setcode] whose code holds SYS and not EOS. *)
Lemma setcode_prints_hash_and_markers_sample :
  let E := Samples.failing "EOF" in
  let act := Samples.setcode (bytes_of "xxSYSyy") in
  Writer (snd (analyzeAction E 0 act (NewAnalyzer false)))
  = [entry 1 act;
     Fprintf (lit "Set code for account: %s\n") [VString "alice"];
     Fprintf (lit "VM type/version: %d/%d\n") [VInt 0; VInt 0];
     Fprintf (lit "Code's SHA256: %s\n")
       [VString (hex.EncodeToString (Sum256 E (bytes_of "xxSYSyy")))];
     Fprintf (lit "Contains the string 'SYS': %v\n") [VBool true];
     Fprintf (lit "Contains the string 'EOS': %v\n") [VBool false];
     Fprintln []; Fprintln []].
Proof.
  intros E act.
  destruct (setcode_prints_hash_and_markers E 0 act _ (NewAnalyzer false) eq_refl)
    as [sys [eos [Hw [Hsys Heos]]]].
  rewrite Hw.
  assert (sys = true) as ->.
  { apply Hsys. now exists (bytes_of "xx"), (bytes_of "yy"). }
  assert (eos = false) as ->.
  { destruct eos; [| reflexivity].
    pose proof (proj1 Heos eq_refl) as Hocc.
    apply Contains_spec in Hocc. discriminate Hocc. }
  reflexivity.
Defined.

(** C4, as stated, fails: an action whose payload is neither a
    [SetCode] nor a [SetABI] gets its entry line and nothing else.  No
    write shows the length of the payload (3 here), and the report is
    the same for a payload of another length. *)
Lemma raw_action_shows_no_payload_length :
  let E := Samples.failing "EOF" in
  let act := Samples.raw "foo" "nop" [x01; x02; x03] in
  let out := Writer (snd (analyzeAction E 0 act (NewAnalyzer true))) in
  out = [entry 1 act]
  /\ ~ Exists (shows (len (eos.ActionData.HexData (eos.Action.ActionData act)))) out
  /\ out = Writer (snd (analyzeAction E 0
                          (Samples.raw "foo" "nop" [x01; x02; x03; x04; x05])
                          (NewAnalyzer true)))
  /\ Buffer_String E (fun _ => "") out
     = "1. Action foo::nop, authorized by: alice@active, bob@active"
       ++ String LF "".
Proof.
  cbv zeta. repeat split.
  intros H. apply Exists_exists in H. destruct H as [o [Hin Hshows]].
  destruct Hin as [<- | []]. cbn in Hshows.
  repeat (destruct Hshows as [Hshows | Hshows]; [discriminate Hshows |]).
  exact Hshows.
Qed.

(** C4, amended.  An action whose payload is neither a [SetCode] nor a
    [SetABI] gets its entry line only: no sub-report, no note on the
    payload or its length, and no payload error; nil is returned. *)
Theorem other_action_gets_entry_line_only E idx act a :
  (forall obj,
      eos.ActionData.Data (eos.Action.ActionData act) <> eos.PtrSetCode obj) ->
  (forall obj,
      eos.ActionData.Data (eos.Action.ActionData act) <> eos.PtrSetABI obj) ->
  analyzeAction E idx act a
  = ((None, act),
     {| Verbose := Verbose a;
        Writer := (Writer a ++ [entry (idx + 1) act])%list |}).
Proof.
  intros Hcode Habi. rewrite (analyzeAction_appends E idx act a).
  unfold details.
  destruct (eos.ActionData.Data (eos.Action.ActionData act)) as [|obj|obj|typ].
  - reflexivity.
  - now destruct (Hcode obj).
  - now destruct (Habi obj).
  - reflexivity.
Qed.

Lemma other_action_gets_entry_line_only_sample :
  let act := Samples.raw "foo" "nop" [x01; x02; x03] in
  analyzeAction (Samples.failing "EOF") 4 act (NewAnalyzer true)
  = ((None, act), {| Verbose := true; Writer := [entry 5 act] |}).
Proof.
  intros act.
  apply (other_action_gets_entry_line_only (Samples.failing "EOF") 4 act
           (NewAnalyzer true)); intros obj; discriminate.
Defined.

(** C5, as stated, fails: after a [SetABI] action whose ABI decodes,
    an action addressed to the account the ABI was set for still gets
    its entry line only, exactly as on a fresh analyzer: its payload
    is not decoded with the ABI just installed. *)
Lemma installed_abi_is_not_reused :
  let E := Samples.failing "EOF" in
  let install := Samples.setabi [x41] in
  let act := Samples.raw "alice" "hi" [x01; x02; x03] in
  let a1 := snd (analyzeAction E 0 install (NewAnalyzer true)) in
  eos.ActionData.Data (eos.Action.ActionData install)
  = eos.PtrSetABI {| eos.system.SetABI.Account := eos.Action.Account act;
                     eos.system.SetABI.ABI := [x41] |}
  /\ snd (UnmarshalBinary E [x41] eos.ABI.zero) = None
  /\ analyzeAction E 1 act a1
     = ((None, act),
        {| Verbose := true; Writer := (Writer a1 ++ [entry 2 act])%list |})
  /\ Writer (snd (analyzeAction E 1 act (NewAnalyzer true))) = [entry 2 act].
Proof. cbv zeta. repeat split. Qed.

(** C5, amended.  The analyzer keeps no ABI from one action to the
    next: what [analyzeAction] returns and appends is what it returns
    and appends on a fresh analyzer with the same verbose flag; so
    after any action, [SetABI] or not, an action whose payload was
    left raw gets its entry line only. *)
Theorem analyzeAction_ignores_history E idx act a :
  analyzeAction E idx act a
  = (fst (analyzeAction E idx act (NewAnalyzer (Verbose a))),
     {| Verbose := Verbose a;
        Writer := (Writer a
                   ++ Writer (snd (analyzeAction E idx act
                                     (NewAnalyzer (Verbose a)))))%list |})
  /\ forall idx' act',
       eos.ActionData.Data (eos.Action.ActionData act') = eos.Nil ->
       Writer (snd (analyzeAction E idx' act' (snd (analyzeAction E idx act a))))
       = (Writer (snd (analyzeAction E idx act a)) ++ [entry (idx' + 1) act'])%list.
Proof.
  split.
  - now rewrite !(analyzeAction_appends E idx act _).
  - intros idx' act' Hraw.
    rewrite (analyzeAction_appends E idx' act' _).
    rewrite (analyzeAction_appends E idx act a).
    cbn [snd Writer Verbose]. unfold details at 2. now rewrite Hraw.
Qed.

(** After a [setabi] that decodes, a raw action of the same account. *)
Lemma analyzeAction_ignores_history_sample :
  let E := Samples.failing "EOF" in
  let act' := Samples.raw "alice" "hi" [x01; x02; x03] in
  let a1 := snd (analyzeAction E 0 (Samples.setabi [x41]) (NewAnalyzer true)) in
  Writer (snd (analyzeAction E 1 act' a1)) = (Writer a1 ++ [entry 2 act'])%list.
Proof.
  intros E act' a1.
  exact (proj2 (analyzeAction_ignores_history E 0 (Samples.setabi [x41])
                  (NewAnalyzer true)) 1 act' eq_refl).
Defined.

(** C6.  When the envelope unpacks, the banners of the report are, in
    this order, PACKED TRANSACTION, SIGNED TRANSACTION, TRANSACTION
    HEADER and ACTIONS; the report ends with the ACTIONS section, made
    of the entries of the context-free actions followed by those of
    the regular actions.  The entries of a list follow the order of
    the list, each with its sub-report, and are numbered from 1: the
    [k]-th action (from 0) gets the entry line with number [k + 1],
    account, name and joined authorizations. *)
Theorem report_layout E verbose trx sTx :
  Unpack E trx = inl sTx ->
  exists before,
    Writer (snd (AnalyzePacked E trx (NewAnalyzer verbose)))
    = (before
       ++ banner ACTIONS
       ++ [Fprintf (lit "Context-free actions: %d\n")
             [VInt (len (eos.Transaction.ContextFreeActions
                           (eos.SignedTransaction.Transaction sTx)))]]
       ++ entries E verbose 1
            (eos.Transaction.ContextFreeActions (eos.SignedTransaction.Transaction sTx))
       ++ [Fprintln [];
           Fprintf (lit "Actions: %d\n")
             [VInt (len (eos.Transaction.Actions
                           (eos.SignedTransaction.Transaction sTx)))]]
       ++ entries E verbose 1
            (eos.Transaction.Actions (eos.SignedTransaction.Transaction sTx)))%list
    /\ sections before
       = ["PACKED TRANSACTION"; "SIGNED TRANSACTION"; "TRANSACTION HEADER"]
    /\ sections (Writer (snd (AnalyzePacked E trx (NewAnalyzer verbose))))
       = ["PACKED TRANSACTION"; "SIGNED TRANSACTION"; "TRANSACTION HEADER";
          "ACTIONS"]
    /\ (forall n acts k act,
          nth_error acts k = Some act ->
          exists earlier later,
            entries E verbose n acts
            = (earlier
               ++ Fprintf (lit "%d. Action %s::%s, authorized by: %s\n")
                    [VInt (n + Z.of_nat k); VString (eos.Action.Account act);
                     VString (eos.Action.Name act);
                     VString (strings.Join
                                (map authorization (eos.Action.Authorization act))
                                ", ")]
               :: details E verbose act ++ later)%list
            /\ earlier = entries E verbose n (firstn k acts)
            /\ later = entries E verbose (n + Z.of_nat k + 1) (skipn (S k) acts)).
Proof.
  intros Hunpack.
  rewrite (AnalyzePacked_appends_ok E trx sTx Hunpack (NewAnalyzer verbose)).
  cbn [snd Writer Verbose NewAnalyzer app].
  exists (packedSection E verbose trx ++ banner SIGNED_TRANSACTION
          ++ signedSection verbose sTx
          ++ headerSection E (eos.SignedTransaction.Transaction sTx))%list.
  split; [| split; [| split]].
  - unfold actionsSection. now rewrite <- !app_assoc.
  - rewrite !sections_app, sections_packedSection, sections_signedSection,
      sections_headerSection. reflexivity.
  - rewrite !sections_app, sections_packedSection, sections_signedSection,
      sections_headerSection, sections_actionsSection. reflexivity.
  - intros n acts k act Hk.
    exists (entries E verbose n (firstn k acts)),
           (entries E verbose (n + Z.of_nat k + 1) (skipn (S k) acts)).
    split; [| split; reflexivity].
    pose proof (nth_error_split acts k Hk) as [l1 [l2 [Hacts Hlen]]].
    assert (firstn k acts = l1) as ->.
    { subst acts. rewrite <- Hlen, firstn_app, Nat.sub_diag, firstn_all.
      cbn. now rewrite app_nil_r. }
    assert (skipn (S k) acts = l2) as ->.
    { subst acts.
      replace (l1 ++ act :: l2)%list with ((l1 ++ [act]) ++ l2)%list
        by now rewrite <- app_assoc.
      replace (S k) with (List.length (l1 ++ [act])%list)
        by (rewrite length_app; cbn; lia).
      now rewrite skipn_app, skipn_all, Nat.sub_diag. }
    subst acts. rewrite entries_app. cbn [entries]. unfold len.
    rewrite Hlen. reflexivity.
Qed.

(** The layout on a sample transaction with one context-free action
    and two regular actions. *)
Lemma report_layout_sample :
  let tx := Samples.transaction
              [Samples.raw "foo" "nop" [x01]]
              [Samples.setcode (bytes_of "EOS"); Samples.raw "alice" "hi" []] in
  let E := Samples.unpacking (Samples.signed tx) in
  let w := Writer (snd (AnalyzePacked E (Samples.packed [] [x01])
                          (NewAnalyzer false))) in
  sections w
  = ["PACKED TRANSACTION"; "SIGNED TRANSACTION"; "TRANSACTION HEADER"; "ACTIONS"]
  /\ exists before,
       w = (before ++ banner ACTIONS
            ++ [Fprintf (lit "Context-free actions: %d\n") [VInt 1]]
            ++ entries E false 1 [Samples.raw "foo" "nop" [x01]]
            ++ [Fprintln []; Fprintf (lit "Actions: %d\n") [VInt 2]]
            ++ entries E false 1
                 [Samples.setcode (bytes_of "EOS"); Samples.raw "alice" "hi" []])%list.
Proof.
  intros tx E w.
  destruct (report_layout E false (Samples.packed [] [x01]) (Samples.signed tx)
              eq_refl) as [before [Hw [_ [Hs _]]]].
  split; [exact Hs |]. exists before. exact Hw.
Defined.

(** C7.  With the verbose flag off, [VerbDump], [VerbPln] and [VerbPf]
    write nothing, and no write of a whole pass is a byte dump or a
    line of the JSON text of an ABI, whatever the decoders returned:
    the text of the report is the same under any dumper, and the
    report is the same whatever JSON text [json.MarshalIndent]
    produces. *)
Theorem quiet_pass_has_no_dumps E (w : bytes.Buffer) :
  (forall format v,
      VerbDump v {| Verbose := false; Writer := w |}
      = (tt, {| Verbose := false; Writer := w |})
      /\ VerbPln v {| Verbose := false; Writer := w |}
         = (tt, {| Verbose := false; Writer := w |})
      /\ VerbPf format v {| Verbose := false; Writer := w |}
         = (tt, {| Verbose := false; Writer := w |}))
  /\ (forall trx, exists out,
        Writer (snd (AnalyzePacked E trx {| Verbose := false; Writer := w |}))
        = (w ++ out)%list
        /\ Forall (fun o => verboseOnly o = false) out
        /\ forall Sdump Sdump',
             Buffer_String E Sdump out = Buffer_String E Sdump' out)
  /\ (forall tx, exists out,
        Writer (snd (AnalyzeTransaction E tx {| Verbose := false; Writer := w |}))
        = (w ++ out)%list
        /\ Forall (fun o => verboseOnly o = false) out
        /\ forall Sdump Sdump',
             Buffer_String E Sdump out = Buffer_String E Sdump' out)
  /\ (forall marshal marshal' trx,
        (forall abi prefix indent, snd (marshal abi prefix indent) = None) ->
        (forall abi prefix indent, snd (marshal' abi prefix indent) = None) ->
        AnalyzePacked (withMarshal E marshal) trx {| Verbose := false; Writer := w |}
        = AnalyzePacked (withMarshal E marshal') trx
            {| Verbose := false; Writer := w |}).
Proof.
  assert (forall trx, exists out,
             Writer (snd (AnalyzePacked E trx {| Verbose := false; Writer := w |}))
             = (w ++ out)%list
             /\ Forall (fun o => verboseOnly o = false) out) as Hpacked.
  { intros trx. destruct (Unpack E trx) as [sTx | err] eqn:Hunpack.
    - rewrite (AnalyzePacked_appends_ok E trx sTx Hunpack _).
      cbn [snd Writer Verbose]. eexists. split; [reflexivity |].
      apply Forall_app; split; [apply quiet_packedSection |].
      apply Forall_app; split; [now apply quiet_banner |].
      apply Forall_app; split; [constructor; [reflexivity | apply quiet_blobs] |].
      apply Forall_app; split; [apply quiet_headerSection |].
      apply quiet_actionsSection.
    - rewrite (AnalyzePacked_appends_err E trx err Hunpack _).
      cbn [snd Writer Verbose]. eexists. split; [reflexivity |].
      apply Forall_app; split; [apply quiet_packedSection |].
      now apply quiet_banner. }
  split; [| split; [| split]].
  - intros format v. repeat split.
  - intros trx. destruct (Hpacked trx) as [out [Hw Hquiet]].
    exists out. split; [exact Hw | split; [exact Hquiet |]].
    intros Sdump Sdump'. now apply Buffer_String_any_dumper.
  - intros tx. rewrite (AnalyzeTransaction_appends E tx _).
    cbn [snd Writer Verbose]. eexists. split; [reflexivity |].
    assert (Forall (fun o => verboseOnly o = false)
              (headerSection E tx ++ actionsSection E false tx)) as Hquiet.
    { apply Forall_app; split;
        [apply quiet_headerSection | apply quiet_actionsSection]. }
    split; [exact Hquiet |].
    intros Sdump Sdump'. now apply Buffer_String_any_dumper.
  - intros marshal marshal' trx Hok Hok'.
    now apply quiet_AnalyzePacked_any_json.
Qed.

(** A quiet pass over a [setcode] and a [setabi] that decodes: no dump
    of the code, no JSON line, whatever the JSON text. *)
Lemma quiet_pass_sample :
  let tx := Samples.transaction []
              [Samples.setcode (bytes_of "EOS"); Samples.setabi [x41]] in
  let E := Samples.unpacking (Samples.signed tx) in
  let trx := Samples.packed [x01] [x02] in
  dumps (Writer (snd (AnalyzePacked E trx (NewAnalyzer false)))) = []
  /\ AnalyzePacked (withMarshal E (fun _ _ _ => (bytes_of "{}", None))) trx
       (NewAnalyzer false)
     = AnalyzePacked (withMarshal E (fun abi _ _ =>
                                       (bytes_of (eos.ABI.Version abi), None)))
         trx (NewAnalyzer false).
Proof.
  intros tx E trx. split; [reflexivity |].
  apply (proj2 (proj2 (proj2 (quiet_pass_has_no_dumps E [])))); reflexivity.
Defined.

(** C8 fails on the code.  On an envelope with no context-free data
    and two bytes of packed transaction data, a verbose pass makes two
    dumps, both of the empty context-free data: the two bytes of the
    packed transaction data are never dumped. *)
Theorem packed_transaction_data_is_not_dumped :
  let E := Samples.failing "EOF" in
  let trx := Samples.packed [] [x01; x02] in
  let w := Writer (snd (AnalyzePacked E trx (NewAnalyzer true))) in
  dumps w = [[VBytes []]; [VBytes []]]
  /\ ~ In (Fdump [VBytes (eos.PackedTransaction.PackedTransaction trx)]) w.
Proof.
  cbv zeta. split; [reflexivity |].
  cbn. intros H.
  repeat (destruct H as [H | H]; [discriminate H |]).
  exact H.
Qed.


(** C10.  [analyzeAction] returns nil for every action, so
    [AnalyzeTransaction] and [AnalyzeSignedTransaction] return nil for
    every transaction; when [json.MarshalIndent] fails in the [SetABI]
    branch, the failure is printed to the report and nil is returned
    all the same. *)
Theorem analysis_never_fails E :
  (forall idx act a, fst (fst (analyzeAction E idx act a)) = None)
  /\ (forall tx a, fst (AnalyzeTransaction E tx a) = None)
  /\ (forall sTx a, fst (AnalyzeSignedTransaction E sTx a) = None)
  /\ (forall idx act obj jsonABI err a,
        eos.ActionData.Data (eos.Action.ActionData act) = eos.PtrSetABI obj ->
        MarshalIndent E
          (fst (UnmarshalBinary E (eos.system.SetABI.ABI obj) eos.ABI.zero))
          "" "  " = (jsonABI, Some err) ->
        fst (fst (analyzeAction E idx act a)) = None
        /\ In (Fprintf (lit "Couldn't serialize ABI into JSON: %s\n") [VError err])
             (Writer (snd (analyzeAction E idx act a)))).
Proof.
  split; [| split; [| split]].
  - intros idx act a. now rewrite (analyzeAction_appends E idx act a).
  - intros tx a. now rewrite (AnalyzeTransaction_appends E tx a).
  - intros sTx a. now rewrite (AnalyzeSignedTransaction_appends E sTx a).
  - intros idx act obj jsonABI err a Hdata Hjson.
    rewrite (analyzeAction_appends E idx act a). cbn [fst snd Writer].
    split; [reflexivity |].
    apply in_or_app. right. right. unfold details. rewrite Hdata, Hjson.
    cbn [snd]. apply in_or_app. right. apply in_or_app. right.
    apply in_or_app. left. now left.
Qed.

(** A failing [json.MarshalIndent], on a sample [setabi] action. *)
Lemma analysis_never_fails_sample :
  let E := withMarshal (Samples.failing "EOF")
             (fun _ _ _ => ([], Some "json: unsupported value")) in
  let act := Samples.setabi [x41] in
  fst (fst (analyzeAction E 0 act (NewAnalyzer false))) = None
  /\ In (Fprintf (lit "Couldn't serialize ABI into JSON: %s\n")
           [VError "json: unsupported value"])
        (Writer (snd (analyzeAction E 0 act (NewAnalyzer false)))).
Proof.
  intros E act.
  exact (proj2 (proj2 (proj2 (analysis_never_fails E))) 0 act _ _ _
           (NewAnalyzer false) eq_refl eq_refl).
Defined.

(** * More properties of the analyzer *)

(** ** Helpers *)

Lemma AnalyzePacked_appends E trx :
  appends (AnalyzePacked E trx) (outcome E trx)
    (fun verbose => packedReport E verbose trx).
Proof.
  unfold outcome, packedReport.
  destruct (Unpack E trx) as [sTx | err] eqn:Hunpack.
  - now apply AnalyzePacked_appends_ok.
  - now apply AnalyzePacked_appends_err.
Qed.

Lemma quiet_app (w1 w2 : bytes.Buffer) :
  quiet (w1 ++ w2)%list = (quiet w1 ++ quiet w2)%list.
Proof. apply filter_app. Qed.

Lemma quiet_of_gated verbose o :
  verboseOnly o = true -> quiet (gated verbose o) = [].
Proof.
  intros H. destruct verbose; [| reflexivity].
  unfold quiet. cbn [gated filter]. now rewrite H.
Qed.

Lemma quiet_fixes (w : bytes.Buffer) :
  Forall (fun o => verboseOnly o = false) w -> quiet w = w.
Proof.
  induction 1 as [|o w Ho _ IH]; [reflexivity |].
  unfold quiet in *. cbn [filter]. now rewrite Ho, IH.
Qed.

Lemma quiet_details_of_verbose E act :
  quiet (details E true act) = details E false act.
Proof.
  unfold details.
  destruct (eos.ActionData.Data (eos.Action.ActionData act)) as [|obj|obj|typ];
    try reflexivity.
  destruct (snd (UnmarshalBinary E (eos.system.SetABI.ABI obj) eos.ABI.zero));
    destruct (snd (MarshalIndent E
                     (fst (UnmarshalBinary E (eos.system.SetABI.ABI obj)
                             eos.ABI.zero)) "" "  "));
    reflexivity.
Qed.

Lemma quiet_entries_of_verbose E n acts :
  quiet (entries E true n acts) = entries E false n acts.
Proof.
  revert n. induction acts as [|act rest IH]; intros n; [reflexivity |].
  cbn [entries].
  change (entry n act :: details E true act ++ entries E true (n + 1) rest)%list
    with ([entry n act] ++ details E true act ++ entries E true (n + 1) rest)%list.
  rewrite !quiet_app, quiet_details_of_verbose, IH. reflexivity.
Qed.

Lemma quiet_blobs_of_verbose n l : quiet (blobs true n l) = blobs false n l.
Proof.
  revert n. induction l as [|blob rest IH]; intros n; [reflexivity |].
  cbn [blobs gated app]. unfold quiet in *. cbn [filter verboseOnly negb].
  rewrite IH. reflexivity.
Qed.

Lemma quiet_actionsSection_of_verbose E tx :
  quiet (actionsSection E true tx) = actionsSection E false tx.
Proof.
  unfold actionsSection.
  rewrite !quiet_app, !quiet_entries_of_verbose. reflexivity.
Qed.

Lemma quiet_packedReport_of_verbose E trx :
  quiet (packedReport E true trx) = packedReport E false trx.
Proof.
  unfold packedReport. destruct (Unpack E trx) as [sTx | err].
  - rewrite !quiet_app, quiet_actionsSection_of_verbose.
    unfold signedSection.
    change (Fprintf (lit "Number of context-free data blobs (on Transaction): %d\n")
              [VInt (len (eos.SignedTransaction.ContextFreeData sTx))]
            :: blobs true 1 (eos.SignedTransaction.ContextFreeData sTx))%list
      with ([Fprintf (lit "Number of context-free data blobs (on Transaction): %d\n")
               [VInt (len (eos.SignedTransaction.ContextFreeData sTx))]]
            ++ blobs true 1 (eos.SignedTransaction.ContextFreeData sTx))%list.
    rewrite quiet_app, quiet_blobs_of_verbose. reflexivity.
  - reflexivity.
Qed.

Lemma dumps_gated verbose v : dumps (gated verbose (Fdump v)) = if verbose then [v] else [].
Proof. now destruct verbose. Qed.

Lemma dumps_details E act :
  dumps (details E true act)
  = match eos.ActionData.Data (eos.Action.ActionData act) with
    | eos.PtrSetCode obj => [[VBytes (eos.system.SetCode.Code obj)]]
    | _ => []
    end.
Proof.
  unfold details.
  destruct (eos.ActionData.Data (eos.Action.ActionData act)) as [|obj|obj|typ];
    try reflexivity.
  destruct (snd (UnmarshalBinary E (eos.system.SetABI.ABI obj) eos.ABI.zero));
    destruct (snd (MarshalIndent E
                     (fst (UnmarshalBinary E (eos.system.SetABI.ABI obj)
                             eos.ABI.zero)) "" "  "));
    reflexivity.
Qed.

Lemma dumps_entries E n acts :
  dumps (entries E true n acts) = map (fun code => [VBytes code]) (codes acts).
Proof.
  revert n. induction acts as [|act rest IH]; intros n; [reflexivity |].
  cbn [entries codes dumps entry]. rewrite dumps_app, dumps_details, IH.
  now destruct (eos.ActionData.Data (eos.Action.ActionData act)).
Qed.

Lemma dumps_blobs n l :
  dumps (blobs true n l) = map (fun blob => [VBytes blob]) l.
Proof.
  revert n. induction l as [|blob rest IH]; intros n; [reflexivity |].
  cbn [blobs gated app dumps map]. now rewrite IH.
Qed.

Lemma entryLines_details E verbose act :
  filter isEntry (details E verbose act) = [].
Proof.
  unfold details.
  destruct (eos.ActionData.Data (eos.Action.ActionData act)) as [|obj|obj|typ];
    try reflexivity.
  - now destruct verbose.
  - destruct (snd (UnmarshalBinary E (eos.system.SetABI.ABI obj) eos.ABI.zero));
      destruct (snd (MarshalIndent E
                       (fst (UnmarshalBinary E (eos.system.SetABI.ABI obj)
                               eos.ABI.zero)) "" "  "));
      now destruct verbose.
Qed.

Lemma entryLines_entries E verbose n acts :
  List.length (filter isEntry (entries E verbose n acts)) = List.length acts.
Proof.
  revert n. induction acts as [|act rest IH]; intros n; [reflexivity |].
  cbn [entries].
  change (entry n act :: details E verbose act ++ entries E verbose (n + 1) rest)%list
    with ([entry n act] ++ details E verbose act
          ++ entries E verbose (n + 1) rest)%list.
  rewrite !filter_app, entryLines_details, !length_app, IH. reflexivity.
Qed.

Lemma blobs_app verbose n (l1 l2 : list eos.HexBytes) :
  blobs verbose n (l1 ++ l2)%list
  = (blobs verbose n l1 ++ blobs verbose (n + len l1) l2)%list.
Proof.
  revert n. induction l1 as [|blob l1 IH]; intros n.
  - cbn. now rewrite Z.add_0_r.
  - cbn [app blobs]. rewrite IH. cbn [app]. rewrite <- app_assoc.
    replace (n + 1 + len l1) with (n + len (blob :: l1))
      by (unfold len; cbn [List.length]; lia).
    reflexivity.
Qed.

Lemma Sub_bounds (t u : time.Time) :
  time.minDuration <= time.Sub t u <= time.maxDuration
  /\ (time.Sub t u < 0 <-> t < u)
  /\ (time.minDuration <= t - u <= time.maxDuration -> time.Sub t u = t - u).
Proof.
  unfold time.Sub, time.minDuration, time.maxDuration. cbv zeta.
  change (2 ^ 63) with 9223372036854775808.
  repeat match goal with
         | |- context [(?x <? ?y)%Z] => destruct (Z.ltb_spec x y)
         end; lia.
Qed.

Lemma occurs_length (sub s : list byte) :
  occurs sub s -> (List.length sub <= List.length s)%nat.
Proof.
  intros [before [after ->]]. rewrite !length_app. lia.
Qed.

Lemma Contains_short (b subslice : list byte) :
  (List.length b < List.length subslice)%nat ->
  bytes.Contains b subslice = false.
Proof.
  intros Hlen. destruct (bytes.Contains b subslice) eqn:Hc; [| reflexivity].
  apply Contains_spec, occurs_length in Hc. lia.
Qed.

(** ** The pass as a whole *)

(** X1.  [AnalyzePacked] only appends: from any analyzer it returns
    what it returns from a fresh analyzer with the same verbose flag,
    keeps the flag, and leaves what the buffer held in front of what a
    fresh analyzer gets; the text of the buffer before the call is a
    prefix of its text after the call. *)
Theorem AnalyzePacked_only_appends E trx a :
  AnalyzePacked E trx a
  = (fst (AnalyzePacked E trx (NewAnalyzer (Verbose a))),
     {| Verbose := Verbose a;
        Writer := (Writer a
                   ++ Writer (snd (AnalyzePacked E trx
                                     (NewAnalyzer (Verbose a)))))%list |})
  /\ forall Sdump,
       Buffer_String E Sdump (Writer (snd (AnalyzePacked E trx a)))
       = Buffer_String E Sdump (Writer a)
         ++ Buffer_String E Sdump
              (Writer (snd (AnalyzePacked E trx (NewAnalyzer (Verbose a))))).
Proof.
  rewrite !(AnalyzePacked_appends E trx _). cbn [fst snd Verbose Writer NewAnalyzer app].
  split; [reflexivity |]. intros Sdump. apply Buffer_String_app.
Qed.


(** X3.  A verbose pass writes what the quiet pass writes, in the same
    order, with the dumps and the JSON lines in between: without its
    verbose-only writes the verbose report is the quiet report, and
    both passes return the same error. *)
Theorem verbose_report_extends_quiet E trx :
  quiet (Writer (snd (AnalyzePacked E trx (NewAnalyzer true))))
  = Writer (snd (AnalyzePacked E trx (NewAnalyzer false)))
  /\ fst (AnalyzePacked E trx (NewAnalyzer true))
     = fst (AnalyzePacked E trx (NewAnalyzer false)).
Proof.
  rewrite !(AnalyzePacked_appends E trx _).
  cbn [fst snd Verbose Writer NewAnalyzer app].
  split; [apply quiet_packedReport_of_verbose | reflexivity].
Qed.

(** X4.  What a verbose pass dumps when the envelope unpacks: the
    packed context-free data, twice; then each context-free data blob;
    then the code of each [SetCode] action, context-free actions
    first. *)
Theorem verbose_pass_dumps E trx sTx :
  Unpack E trx = inl sTx ->
  dumps (Writer (snd (AnalyzePacked E trx (NewAnalyzer true))))
  = map (fun b => [VBytes b])
      ([eos.PackedTransaction.PackedContextFreeData trx;
        eos.PackedTransaction.PackedContextFreeData trx]
       ++ eos.SignedTransaction.ContextFreeData sTx
       ++ codes (eos.Transaction.ContextFreeActions
                   (eos.SignedTransaction.Transaction sTx))
       ++ codes (eos.Transaction.Actions
                   (eos.SignedTransaction.Transaction sTx)))%list.
Proof.
  intros Hunpack.
  rewrite (AnalyzePacked_appends_ok E trx sTx Hunpack _).
  cbn [snd Verbose Writer NewAnalyzer app].
  unfold signedSection, actionsSection.
  rewrite !dumps_app, dumps_packedSection. cbn [dumps banner app].
  rewrite !dumps_entries, dumps_blobs. cbn [map app].
  rewrite ?map_app. reflexivity.
Qed.

Lemma verbose_pass_dumps_sample :
  let tx := Samples.transaction
              [Samples.setcode (bytes_of "cf")]
              [Samples.raw "foo" "nop" [x01]; Samples.setcode (bytes_of "EOS")] in
  let E := Samples.unpacking (Samples.signed tx) in
  dumps (Writer (snd (AnalyzePacked E (Samples.packed [x07] [x01; x02])
                        (NewAnalyzer true))))
  = [[VBytes [x07]]; [VBytes [x07]]; [VBytes (bytes_of "blob")];
     [VBytes (bytes_of "cf")]; [VBytes (bytes_of "EOS")]].
Proof.
  intros tx E.
  exact (verbose_pass_dumps E (Samples.packed [x07] [x01; x02])
           (Samples.signed tx) eq_refl).
Defined.

(** X5.  [AnalyzeTransaction] writes one entry line per action, and the
    two counts it prints are the numbers of context-free and of
    regular actions. *)
Theorem one_entry_per_action E tx verbose :
  List.length (filter isEntry
                 (Writer (snd (AnalyzeTransaction E tx (NewAnalyzer verbose)))))
  = (List.length (eos.Transaction.ContextFreeActions tx)
     + List.length (eos.Transaction.Actions tx))%nat
  /\ In (Fprintf (lit "Context-free actions: %d\n")
           [VInt (Z.of_nat (List.length (eos.Transaction.ContextFreeActions tx)))])
        (Writer (snd (AnalyzeTransaction E tx (NewAnalyzer verbose))))
  /\ In (Fprintf (lit "Actions: %d\n")
           [VInt (Z.of_nat (List.length (eos.Transaction.Actions tx)))])
        (Writer (snd (AnalyzeTransaction E tx (NewAnalyzer verbose)))).
Proof.
  rewrite (AnalyzeTransaction_appends E tx _).
  cbn [snd Verbose Writer NewAnalyzer app]. unfold actionsSection.
  split; [| split].
  - rewrite !filter_app, !length_app, !entryLines_entries. reflexivity.
  - apply in_or_app. right. apply in_or_app. right.
    apply in_or_app. left. now left.
  - apply in_or_app. right. apply in_or_app. right.
    apply in_or_app. right. apply in_or_app. right.
    apply in_or_app. left. right. now left.
Qed.

(** X6.  When the envelope unpacks, the report of [AnalyzePacked] is a
    prelude, holding the PACKED TRANSACTION and SIGNED TRANSACTION
    banners, followed by the report [AnalyzeSignedTransaction] writes
    for the unpacked transaction, whose result is returned. *)
Theorem AnalyzePacked_ends_with_transaction_report E trx sTx a :
  Unpack E trx = inl sTx ->
  fst (AnalyzePacked E trx a)
  = fst (AnalyzeSignedTransaction E sTx (NewAnalyzer (Verbose a)))
  /\ exists prelude,
       Writer (snd (AnalyzePacked E trx a))
       = (Writer a ++ prelude
          ++ Writer (snd (AnalyzeSignedTransaction E sTx
                            (NewAnalyzer (Verbose a)))))%list
       /\ sections prelude = ["PACKED TRANSACTION"; "SIGNED TRANSACTION"].
Proof.
  intros Hunpack.
  rewrite (AnalyzePacked_appends_ok E trx sTx Hunpack _),
    (AnalyzeSignedTransaction_appends E sTx _).
  cbn [fst snd Verbose Writer NewAnalyzer app]. split; [reflexivity |].
  exists (packedSection E (Verbose a) trx ++ banner SIGNED_TRANSACTION
          ++ signedSection (Verbose a) sTx)%list.
  split.
  - now rewrite <- !app_assoc.
  - now rewrite !sections_app, sections_packedSection, sections_signedSection.
Qed.

Lemma AnalyzePacked_ends_with_transaction_report_sample :
  let sTx := Samples.signed (Samples.transaction [] [Samples.setabi [x41]]) in
  let E := Samples.unpacking sTx in
  exists prelude,
    Writer (snd (AnalyzePacked E (Samples.packed [] [x01]) (NewAnalyzer true)))
    = (prelude
       ++ Writer (snd (AnalyzeSignedTransaction E sTx (NewAnalyzer true))))%list
    /\ sections prelude = ["PACKED TRANSACTION"; "SIGNED TRANSACTION"].
Proof.
  intros sTx E.
  exact (proj2 (AnalyzePacked_ends_with_transaction_report E
                  (Samples.packed [] [x01]) sTx (NewAnalyzer true) eq_refl)).
Defined.

(** X7.  When the envelope unpacks, the SIGNED TRANSACTION section gives
    the number of context-free data blobs and, for the [k]-th blob
    (from 0), a line with the number [k + 1] and the length of the
    blob, followed at once by the dump of the blob in verbose mode. *)
Theorem blob_lines E trx sTx verbose k blob :
  Unpack E trx = inl sTx ->
  nth_error (eos.SignedTransaction.ContextFreeData sTx) k = Some blob ->
  exists before after,
    Writer (snd (AnalyzePacked E trx (NewAnalyzer verbose)))
    = (before
       ++ [Fprintf (lit "Number of context-free data blobs (on Transaction): %d\n")
             [VInt (len (eos.SignedTransaction.ContextFreeData sTx))]]
       ++ blobs verbose 1 (firstn k (eos.SignedTransaction.ContextFreeData sTx))
       ++ Fprintf (lit "%d. Blob length: %d\n")
            [VInt (Z.of_nat k + 1); VInt (len blob)]
       :: gated verbose (Fdump [VBytes blob])
       ++ after)%list.
Proof.
  intros Hunpack Hk.
  rewrite (AnalyzePacked_appends_ok E trx sTx Hunpack _).
  cbn [snd Verbose Writer NewAnalyzer app]. unfold signedSection.
  pose proof (nth_error_split _ k Hk) as [l1 [l2 [Hl Hlen]]].
  set (data := eos.SignedTransaction.ContextFreeData sTx) in *.
  clearbody data. subst data.
  assert (firstn k (l1 ++ blob :: l2) = l1) as ->.
  { rewrite <- Hlen, firstn_app, Nat.sub_diag, firstn_all.
    cbn. now rewrite app_nil_r. }
  rewrite blobs_app. cbn [blobs].
  exists (packedSection E verbose trx ++ banner SIGNED_TRANSACTION)%list,
    (blobs verbose (1 + len l1 + 1) l2
     ++ headerSection E (eos.SignedTransaction.Transaction sTx)
     ++ actionsSection E verbose (eos.SignedTransaction.Transaction sTx))%list.
  replace (1 + len l1) with (Z.of_nat k + 1) by (unfold len; lia).
  repeat first [rewrite <- app_assoc | progress cbn [app]]. reflexivity.
Qed.

Lemma blob_lines_sample :
  let sTx := Samples.signed (Samples.transaction [] []) in
  let E := Samples.unpacking sTx in
  exists before after,
    Writer (snd (AnalyzePacked E (Samples.packed [] [x01]) (NewAnalyzer true)))
    = (before
       ++ [Fprintf (lit "Number of context-free data blobs (on Transaction): %d\n")
             [VInt 1]]
       ++ Fprintf (lit "%d. Blob length: %d\n") [VInt 1; VInt 4]
       :: Fdump [VBytes (bytes_of "blob")] :: after)%list.
Proof.
  intros sTx E.
  exact (blob_lines E (Samples.packed [] [x01]) sTx true 0 (bytes_of "blob")
           eq_refl eq_refl).
Defined.

(** X8.  The first line of the TRANSACTION HEADER section prints the
    expiration, the time left until then and the time of the
    analysis.  The time left is an [int64] number of nanoseconds: it
    is negative exactly when the transaction has expired at the time
    of the analysis, and it is the difference of the two instants
    whenever that difference fits. *)
Theorem expiration_line E tx verbose :
  exists left : time.Duration,
    In (Fprintf (lit "Expiration: %s (in %s, analysis time: %s)\n")
          [VTime (eos.Transaction.Expiration tx); VDuration left; VTime (Now E)])
       (Writer (snd (AnalyzeTransaction E tx (NewAnalyzer verbose))))
    /\ time.minDuration <= left <= time.maxDuration
    /\ (left < 0 <-> eos.Transaction.Expiration tx < Now E)
    /\ (time.minDuration <= eos.Transaction.Expiration tx - Now E
          <= time.maxDuration ->
        left = eos.Transaction.Expiration tx - Now E).
Proof.
  exists (time.Sub (eos.Transaction.Expiration tx) (Now E)).
  split; [| apply Sub_bounds].
  rewrite (AnalyzeTransaction_appends E tx _).
  cbn [snd Verbose Writer NewAnalyzer app]. apply in_or_app. left.
  unfold headerSection. apply in_or_app. right. now left.
Qed.

(** X9.  Called on their own, [AnalyzeTransaction] and
    [AnalyzeSignedTransaction] write two banners, TRANSACTION HEADER
    and ACTIONS, in this order, whatever the transaction holds. *)
Theorem transaction_report_sections E verbose :
  (forall tx,
      sections (Writer (snd (AnalyzeTransaction E tx (NewAnalyzer verbose))))
      = ["TRANSACTION HEADER"; "ACTIONS"])
  /\ (forall sTx,
        sections (Writer (snd (AnalyzeSignedTransaction E sTx
                                 (NewAnalyzer verbose))))
        = ["TRANSACTION HEADER"; "ACTIONS"]).
Proof.
  split.
  - intros tx. rewrite (AnalyzeTransaction_appends E tx _).
    cbn [snd Verbose Writer NewAnalyzer app].
    now rewrite sections_app, sections_headerSection, sections_actionsSection.
  - intros sTx. rewrite (AnalyzeSignedTransaction_appends E sTx _).
    cbn [snd Verbose Writer NewAnalyzer app].
    now rewrite sections_app, sections_headerSection, sections_actionsSection.
Qed.

(** ** The sub-reports *)

(** X10.  A [SetABI] whose blob does not unmarshal is still serialized:
    after the note on the failure, a verbose pass prints the JSON text
    of the ABI as [UnmarshalBinary] left it (between the two, the note
    on the serialization, if that fails too). *)
Theorem setabi_failure_still_prints_json E idx act obj abi err a :
  eos.ActionData.Data (eos.Action.ActionData act) = eos.PtrSetABI obj ->
  UnmarshalBinary E (eos.system.SetABI.ABI obj) eos.ABI.zero = (abi, Some err) ->
  Verbose a = true ->
  Writer (snd (analyzeAction E idx act a))
  = (Writer a
     ++ [entry (idx + 1) act;
         Fprintf (lit "Set ABI for account: %s\n")
           [VString (eos.system.SetABI.Account obj)];
         Fprintf (lit "Couldn't unpack the ABI therein: %s\n") [VError err]]
     ++ match snd (MarshalIndent E abi "" "  ") with
        | Some err' =>
            [Fprintf (lit "Couldn't serialize ABI into JSON: %s\n") [VError err']]
        | None => []
        end
     ++ [Fprintln [VString "JSON representation of the ABI:"];
         Fprintf (lit "%s\n")
           [VString (string_of_list_byte (fst (MarshalIndent E abi "" "  ")))];
         Fprintln []; Fprintln []])%list.
Proof.
  intros Hdata Hdecode Hverbose.
  rewrite (analyzeAction_appends E idx act a). cbn [snd Writer].
  unfold details. rewrite Hdata, Hdecode, Hverbose. cbn [fst snd gated app].
  now destruct (snd (MarshalIndent E abi "" "  ")).
Qed.

Lemma setabi_failure_still_prints_json_sample :
  let E := Samples.failing "EOF" in
  let act := Samples.setabi [] in
  Writer (snd (analyzeAction E 0 act (NewAnalyzer true)))
  = [entry 1 act;
     Fprintf (lit "Set ABI for account: %s\n") [VString "alice"];
     Fprintf (lit "Couldn't unpack the ABI therein: %s\n") [VError "EOF"];
     Fprintln [VString "JSON representation of the ABI:"];
     Fprintf (lit "%s\n") [VString "{  version: }"];
     Fprintln []; Fprintln []].
Proof.
  intros E act.
  exact (setabi_failure_still_prints_json E 0 act _ _ _ (NewAnalyzer true)
           eq_refl eq_refl eq_refl).
Defined.

(** X11.  In a quiet pass a [SetABI] that unmarshals and serializes
    shows nothing of the ABI: its sub-report is the entry line, the
    account line and two blank lines. *)
Theorem quiet_setabi_shows_account_only E idx act obj a :
  eos.ActionData.Data (eos.Action.ActionData act) = eos.PtrSetABI obj ->
  snd (UnmarshalBinary E (eos.system.SetABI.ABI obj) eos.ABI.zero) = None ->
  snd (MarshalIndent E
         (fst (UnmarshalBinary E (eos.system.SetABI.ABI obj) eos.ABI.zero))
         "" "  ") = None ->
  Verbose a = false ->
  Writer (snd (analyzeAction E idx act a))
  = (Writer a
     ++ [entry (idx + 1) act;
         Fprintf (lit "Set ABI for account: %s\n")
           [VString (eos.system.SetABI.Account obj)];
         Fprintln []; Fprintln []])%list.
Proof.
  intros Hdata Hdecode Hjson Hquiet.
  rewrite (analyzeAction_appends E idx act a). cbn [snd Writer].
  unfold details. now rewrite Hdata, Hdecode, Hjson, Hquiet.
Qed.

Lemma quiet_setabi_shows_account_only_sample :
  let act := Samples.setabi [x41; x42] in
  Writer (snd (analyzeAction (Samples.failing "EOF") 0 act (NewAnalyzer false)))
  = [entry 1 act;
     Fprintf (lit "Set ABI for account: %s\n") [VString "alice"];
     Fprintln []; Fprintln []].
Proof.
  intros act.
  exact (quiet_setabi_shows_account_only (Samples.failing "EOF") 0 act _
           (NewAnalyzer false) eq_refl eq_refl eq_refl eq_refl).
Defined.

(** X12.  A [SetCode] whose code is shorter than three bytes (empty
    code included) prints both marker flags as false. *)
Theorem short_code_has_no_marker E idx act obj a :
  eos.ActionData.Data (eos.Action.ActionData act) = eos.PtrSetCode obj ->
  (List.length (eos.system.SetCode.Code obj) < 3)%nat ->
  In (Fprintf (lit "Contains the string 'SYS': %v\n") [VBool false])
     (Writer (snd (analyzeAction E idx act a)))
  /\ In (Fprintf (lit "Contains the string 'EOS': %v\n") [VBool false])
        (Writer (snd (analyzeAction E idx act a))).
Proof.
  intros Hdata Hlen.
  rewrite (analyzeAction_appends E idx act a). cbn [snd Writer].
  unfold details. rewrite Hdata.
  rewrite !Contains_short by exact Hlen.
  split; apply in_or_app; right; cbn; tauto.
Qed.

Lemma short_code_has_no_marker_sample :
  let act := Samples.setcode [] in
  In (Fprintf (lit "Contains the string 'SYS': %v\n") [VBool false])
     (Writer (snd (analyzeAction (Samples.failing "EOF") 0 act (NewAnalyzer false))))
  /\ In (Fprintf (lit "Contains the string 'EOS': %v\n") [VBool false])
        (Writer (snd (analyzeAction (Samples.failing "EOF") 0 act
                        (NewAnalyzer false)))).
Proof.
  intros act.
  apply (short_code_has_no_marker (Samples.failing "EOF") 0 act _
           (NewAnalyzer false) eq_refl).
  cbn. lia.
Defined.

(** X13.  A transaction with no action at all still gets its ACTIONS
    section: the banner, then the two counts, both 0, with a blank
    line in between. *)
Theorem empty_transaction_report E tx a :
  eos.Transaction.ContextFreeActions tx = [] ->
  eos.Transaction.Actions tx = [] ->
  AnalyzeTransaction E tx a
  = (None,
     {| Verbose := Verbose a;
        Writer := (Writer a ++ headerSection E tx ++ banner ACTIONS
                   ++ [Fprintf (lit "Context-free actions: %d\n") [VInt 0];
                       Fprintln [];
                       Fprintf (lit "Actions: %d\n") [VInt 0]])%list |}).
Proof.
  intros Hcfa Hacts. rewrite (AnalyzeTransaction_appends E tx a).
  unfold actionsSection. now rewrite Hcfa, Hacts.
Qed.

Lemma empty_transaction_report_sample :
  let tx := Samples.transaction [] [] in
  let E := Samples.failing "EOF" in
  AnalyzeTransaction E tx (NewAnalyzer true)
  = (None,
     {| Verbose := true;
        Writer := (headerSection E tx ++ banner ACTIONS
                   ++ [Fprintf (lit "Context-free actions: %d\n") [VInt 0];
                       Fprintln [];
                       Fprintf (lit "Actions: %d\n") [VInt 0]])%list |}).
Proof.
  intros tx E.
  exact (empty_transaction_report E tx (NewAnalyzer true) eq_refl eq_refl).
Defined.

Lemma fromHexPair_digits (v : byte) :
  fromHexPair (hex.digit (N.shiftr (Byte.to_N v) 4))
    (hex.digit (N.land (Byte.to_N v) 15)) = Some v.
Proof. destruct v; reflexivity. Qed.

Lemma EncodeToString_inj (d d' : list byte) :
  hex.EncodeToString d = hex.EncodeToString d' -> d = d'.
Proof.
  revert d'. induction d as [|v d IH]; intros [|v' d'] H;
    try reflexivity; try discriminate H.
  change (String (hex.digit (N.shiftr (Byte.to_N v) 4))
            (String (hex.digit (N.land (Byte.to_N v) 15)) (hex.EncodeToString d))
          = String (hex.digit (N.shiftr (Byte.to_N v') 4))
              (String (hex.digit (N.land (Byte.to_N v') 15))
                 (hex.EncodeToString d'))) in H.
  injection H as Hhi Hlo Hrest.
  assert (hex.digit (N.shiftr (Byte.to_N v) 4)
          = hex.digit (N.shiftr (Byte.to_N v') 4)) as Hhi' by exact Hhi.
  assert (hex.digit (N.land (Byte.to_N v) 15)
          = hex.digit (N.land (Byte.to_N v') 15)) as Hlo' by exact Hlo.
  pose proof (fromHexPair_digits v) as Hv.
  rewrite Hhi', Hlo', fromHexPair_digits in Hv.
  injection Hv as ->. f_equal. now apply IH.
Qed.

Lemma EncodeToString_length (d : list byte) :
  String.length (hex.EncodeToString d) = (2 * List.length d)%nat.
Proof.
  induction d as [|v d IH]; [reflexivity |].
  cbn [hex.EncodeToString String.length List.length]. rewrite IH. lia.
Qed.

(** X14.  The hash line of a [SetCode] sub-report prints two characters
    per byte of the digest, and two hash lines are the same only when
    the digests are: equal hashes in two reports mean equal digests. *)
Theorem hash_line_determines_digest E (code code' : list byte) :
  String.length (hex.EncodeToString (sha256.Sum E (fst (sha256.Write sha256.New code)) []))
  = (2 * List.length (Sum256 E code))%nat
  /\ (Fprintf (lit "Code's SHA256: %s\n")
        [VString (hex.EncodeToString
                    (sha256.Sum E (fst (sha256.Write sha256.New code)) []))]
      = Fprintf (lit "Code's SHA256: %s\n")
          [VString (hex.EncodeToString
                      (sha256.Sum E (fst (sha256.Write sha256.New code')) []))] ->
      Sum256 E code = Sum256 E code').
Proof.
  cbn [sha256.Sum sha256.Write sha256.New sha256.written fst app].
  split; [apply EncodeToString_length |].
  intros H. injection H as H. now apply EncodeToString_inj.
Qed.

(** The sample digest has 4 bytes: its hash line shows 8 characters. *)
Lemma hash_line_determines_digest_sample :
  String.length
    (hex.EncodeToString
       (sha256.Sum (Samples.failing "EOF")
          (fst (sha256.Write sha256.New (bytes_of "EOS"))) [])) = 8%nat.
Proof.
  exact (proj1 (hash_line_determines_digest (Samples.failing "EOF")
                  (bytes_of "EOS") (bytes_of "EOS"))).
Defined.

(** X15.  Whether the envelope unpacks or not, the PACKED TRANSACTION
    section shows the transaction ID, the signatures and the lengths
    of both packed blobs, each blob with its own length. *)
Theorem packed_section_lines E trx a :
  exists before after,
    Writer (snd (AnalyzePacked E trx a))
    = (Writer a ++ before
       ++ [Fprintf (lit "Transaction ID: %s\n") [VChecksum256 (ID E trx)];
           Fprintf (lit "Signatures: %q\n")
             [VSignatures (eos.PackedTransaction.Signatures trx)];
           Fprintf (lit "Packed context free data length: %d\n")
             [VInt (Z.of_nat (List.length
                                (eos.PackedTransaction.PackedContextFreeData trx)))]]
       ++ gated (Verbose a)
            (Fdump [VBytes (eos.PackedTransaction.PackedContextFreeData trx)])
       ++ Fprintf (lit "Packed transaction data length: %d\n")
            [VInt (Z.of_nat (List.length
                               (eos.PackedTransaction.PackedTransaction trx)))]
       :: after)%list
    /\ sections before = ["PACKED TRANSACTION"].
Proof.
  rewrite (AnalyzePacked_appends E trx a). cbn [snd Writer].
  exists (banner PACKED_TRANSACTION).
  unfold packedReport, packedSection.
  destruct (Unpack E trx) as [sTx | err]; eexists;
    (split; [| reflexivity]);
    repeat first [rewrite <- app_assoc | progress cbn [app]]; reflexivity.
Qed.
